(** * SVDiscordBot: the scrim registration store and its handlers

    A shallow embedding of [src/database.py] and of the handlers of
    [src/bot.py] that read or write the three tables [scrims], [teams] and
    [members], followed by the properties of the registration core.

    Conventions of the embedding.
    - A table is the list of its rows in rowid order; a [SELECT] is a filter
      of that list and [fetchone] its first element.
    - Code that writes the store and may raise is a computation [M A]: a
      function from the store to the new store and either a returned value
      or a raised exception.
    - [async with] and a call of an [async def] function without [await]
      behave as Python defines them for the object at hand, see
      [async_with] and [call_without_await].
    - Calls into the chat platform (roles, nicknames, messages) are taken to
      succeed; what a handler sends is its returned reply. *)

From Stdlib Require Import ZArith List String Ascii Bool Lia.
From Stdlib Require Import DecimalString DecimalZ.
Import ListNotations.

Local Open Scope Z_scope.
Local Open Scope list_scope.

Set Implicit Arguments.

(** ** The tables (database.py 62-89, bot.py 20-42) *)

(** [scrims (id, time_period UNIQUE)]. *)
Record scrim_row : Type := mk_scrim {
  scrim_id : Z;
  time_period : string
}.

(** [teams (id, team_name, scrim_time, leader_id)].  The column
    [scrim_time] is read through Python truthiness by two handlers, so SQL
    [NULL] is kept apart from the empty string. *)
Record team_row : Type := mk_team {
  id : Z;
  team_name : string;
  scrim_time : option string;
  leader_id : Z
}.

(** [members (id, team_id, member_name)]. *)
Record member_row : Type := mk_member {
  member_id : Z;
  team_id : Z;
  member_name : string
}.

(** The contents of [scrim_bot.db]: the three tables and, for each, the
    highest rowid ever handed out ([AUTOINCREMENT] never reuses one). *)
Record Store : Type := mk_store {
  scrims : list scrim_row;
  teams : list team_row;
  members : list member_row;
  seq_scrims : Z;
  seq_teams : Z;
  seq_members : Z
}.

Definition empty_store : Store := mk_store [] [] [] 0 0 0.

Definition with_scrims (l : list scrim_row) (n : Z) (s : Store) : Store :=
  mk_store l (teams s) (members s) n (seq_teams s) (seq_members s).

Definition with_teams (l : list team_row) (n : Z) (s : Store) : Store :=
  mk_store (scrims s) l (members s) (seq_scrims s) n (seq_members s).

Definition with_members (l : list member_row) (n : Z) (s : Store) : Store :=
  mk_store (scrims s) (teams s) l (seq_scrims s) (seq_teams s) n.

(** ** Python values and exceptions *)

(** The exceptions the modelled code can meet; each is a subclass of
    [Exception]. *)
Inductive exn : Type :=
| TypeError        (* an object used outside its protocol; for [async with]
                      it is [AttributeError] before Python 3.11 *)
| ValueError       (* int() of a string that is no numeral *)
| IntegrityError   (* sqlite3: a UNIQUE constraint failed *)
| TimeoutError.    (* asyncio: wait_for ran out of time *)

Inductive result (A : Type) : Type :=
| Return (a : A)
| Raise (e : exn).

Arguments Return {A} a.
Arguments Raise {A} e.

(** A computation over the store that returns or raises. *)
Definition M (A : Type) : Type := Store -> Store * result A.

Definition ret {A} (a : A) : M A := fun s => (s, Return a).

Definition raise {A} (e : exn) : M A := fun s => (s, Raise e).

Definition bind {A B} (m : M A) (k : A -> M B) : M B :=
  fun s =>
    match m s with
    | (s1, Return a) => k a s1
    | (s1, Raise e) => (s1, Raise e)
    end.

Notation "x <- m ;; k" := (bind m (fun x => k))
  (at level 61, m at next level, right associativity).

(** The store and the outcome of a computation run from [s]. *)
Definition store_after {A} (m : M A) (s : Store) : Store := fst (m s).
Definition outcome {A} (m : M A) (s : Store) : result A := snd (m s).

(** ** Strings *)

Definition string_eqb : string -> string -> bool := String.eqb.

(** Python truthiness of a [TEXT] column: [None] and the empty string are
    falsy. *)
Definition truthy (v : option string) : bool :=
  match v with
  | None => false
  | Some t => negb (string_eqb t EmptyString)
  end.

(** SQL [column = ?] on a nullable column: [NULL] matches nothing. *)
Definition column_is (v : option string) (t : string) : bool :=
  match v with
  | None => false
  | Some c => string_eqb c t
  end.

(** ** SQL statements of the source *)

Fixpoint max_id {R} (key : R -> Z) (rows : list R) : Z :=
  match rows with
  | [] => 0
  | r :: rest => Z.max (key r) (max_id key rest)
  end.

(** The rowid an [AUTOINCREMENT] insert gets. *)
Definition next_id {R} (key : R -> Z) (rows : list R) (seq : Z) : Z :=
  Z.max seq (max_id key rows) + 1.

(** [INSERT INTO scrims (time_period) VALUES (?)]; [time_period] is
    [UNIQUE]. *)
Definition insert_scrim (period : string) : M Z :=
  fun s =>
    if existsb (fun r => string_eqb (time_period r) period) (scrims s)
    then (s, Raise IntegrityError)
    else
      let n := next_id scrim_id (scrims s) (seq_scrims s) in
      (with_scrims (scrims s ++ [mk_scrim n period]) n s, Return n).

(** [INSERT INTO teams (team_name, scrim_time, leader_id) VALUES (?, ?, ?)];
    the table the bot creates at import (bot.py 26-34) has no constraint. *)
Definition insert_team (name time : string) (leader : Z) : M Z :=
  fun s =>
    let n := next_id id (teams s) (seq_teams s) in
    (with_teams (teams s ++ [mk_team n name (Some time) leader]) n s, Return n).

(** [INSERT INTO members (team_id, member_name) VALUES (?, ?)]. *)
Definition insert_member (team : Z) (name : string) : M Z :=
  fun s =>
    let n := next_id member_id (members s) (seq_members s) in
    (with_members (members s ++ [mk_member n team name]) n s, Return n).

(** [SELECT COUNT( * ) FROM teams WHERE scrim_time = ?]. *)
Definition count_scrim_time (day : string) (s : Store) : Z :=
  Z.of_nat (List.length (filter (fun r => column_is (scrim_time r) day) (teams s))).

(** [SELECT COUNT( * ) FROM members WHERE team_id = ?]. *)
Definition count_members (team : Z) (s : Store) : Z :=
  Z.of_nat (List.length (filter (fun r => team_id r =? team) (members s))).

(** [SELECT ... FROM teams WHERE leader_id = ?], all rows. *)
Definition teams_led_by (leader : Z) (s : Store) : list team_row :=
  filter (fun r => leader_id r =? leader) (teams s).

(** [SELECT ... FROM teams WHERE team_name = ?], all rows. *)
Definition teams_named (name : string) (s : Store) : list team_row :=
  filter (fun r => string_eqb (team_name r) name) (teams s).

(** [SELECT team_name FROM teams WHERE scrim_time = ?]. *)
Definition teams_at (time : string) (s : Store) : list string :=
  map team_name (filter (fun r => column_is (scrim_time r) time) (teams s)).

(** [SELECT member_name FROM members WHERE team_id = ?]. *)
Definition member_names (team : Z) (s : Store) : list string :=
  map member_name (filter (fun r => team_id r =? team) (members s)).

(** [DELETE FROM teams WHERE team_name = ? AND scrim_time = ?]. *)
Definition delete_team_time (name date : string) (s : Store) : Store :=
  with_teams
    (filter (fun r => negb (string_eqb (team_name r) name && column_is (scrim_time r) date))
            (teams s))
    (seq_teams s) s.

(** [DELETE FROM teams WHERE id = ?]. *)
Definition delete_team_id (n : Z) (s : Store) : Store :=
  with_teams (filter (fun r => negb (id r =? n)) (teams s)) (seq_teams s) s.

(** [DELETE FROM members WHERE team_id = ?]. *)
Definition delete_members_of (n : Z) (s : Store) : Store :=
  with_members (filter (fun r => negb (team_id r =? n)) (members s)) (seq_members s) s.

(** ** DatabaseManager (database.py 6-56) *)

(** How a method that [yield]s is declared.  [get_connection] (line 11)
    carries [@asynccontextmanager]; [transaction] (line 47) is a bare
    [async def] with a [yield]: calling it builds an async generator
    object, which has no [__aenter__]/[__aexit__]. *)
Inductive declaration : Type :=
| AsyncContextManager
| AsyncGenerator.

Definition get_connection_declared : declaration := AsyncContextManager.
Definition transaction_declared : declaration := AsyncGenerator.

(** The generator body of [transaction] (lines 48-56) when it is driven as a
    context manager around [body]: [BEGIN], the body on the open connection,
    then [commit], or on an exception [rollback] and [raise e]. *)
Definition transaction_generator {A} (body : M A) : M A :=
  fun committed =>
    match body committed with
    | (working, Return a) => (working, Return a)
    | (_, Raise e) => (committed, Raise e)
    end.

(** [async with obj as x: body].  An object built by a context manager
    factory runs its generator around the body; an async generator object
    fails the protocol lookup before anything of it or of the body runs. *)
Definition async_with {A} (d : declaration) (generator : M A -> M A) (body : M A) : M A :=
  match d with
  | AsyncContextManager => generator body
  | AsyncGenerator => raise TypeError
  end.

(** [async with db.transaction() as cursor: body], as every caller in
    bot.py writes it. *)
Definition transaction {A} (body : M A) : M A :=
  async_with transaction_declared transaction_generator body.

(** [try: m except Exception: handler]. *)
Definition try_except {A} (m : M A) (handler : M A) : M A :=
  fun s =>
    match m s with
    | (s1, Return a) => (s1, Return a)
    | (s1, Raise _) => handler s1
    end.

(** ** Helper functions (bot.py 69-111) *)

Definition add_scrim_time_body (period : string) : M Z := insert_scrim period.

(** [add_scrim_time] (72-78). *)
Definition add_scrim_time (period : string) : M bool :=
  try_except
    (_ <- transaction (add_scrim_time_body period) ;; ret true)
    (ret false).

Definition add_team_body (name time : string) (leader : Z) : M Z :=
  insert_team name time leader.

(** [add_team] (80-86). *)
Definition add_team (name time : string) (leader : Z) : M Z :=
  transaction (add_team_body name time leader).

(** The block of [add_team_member] under its transaction (94-103). *)
Definition add_team_member_body (team : Z) (name : string) : M bool :=
  fun s =>
    if count_members team s <? 5
    then (_ <- insert_member team name ;; ret true) s
    else (s, Return false).

(** [add_team_member] (92-103). *)
Definition add_team_member (team : Z) (name : string) : M bool :=
  transaction (add_team_member_body team name).

(** [get_teams] (88-90). *)
Definition get_teams (time : string) : M (list string) :=
  fun s => (s, Return (teams_at time s)).

(** [get_team_members] (105-107). *)
Definition get_team_members (team : Z) : M (list string) :=
  fun s => (s, Return (member_names team s)).

(** [get_team_id] (109-111). *)
Definition get_team_id (name : string) : M (option Z) :=
  fun s => (s, Return (option_map id (hd_error (teams_named name s)))).

(** ** The interacting user *)

(** What a handler reads of [interaction.user]: the numeric id, the account
    name, the guild nickname and the names of the roles held. *)
Record user : Type := mk_user {
  user_id : Z;
  account_name : string;
  nick : option string;
  roles : list string
}.

(** [Member.display_name]: the nickname when one is set. *)
Definition display_name (u : user) : string :=
  match nick u with
  | Some n => n
  | None => account_name u
  end.

(** [s.startswith(p)]. *)
Definition startswith (p s : string) : bool := String.prefix p s.

Fixpoint drop_chars (n : nat) (s : string) : string :=
  match n, s with
  | O, _ => s
  | S _, EmptyString => EmptyString
  | S m, String _ rest => drop_chars m rest
  end.

(** [s.split(sep, 1)[-1]]: what follows the first [sep], or all of [s]. *)
Fixpoint after_first_from (sep s : string) : option string :=
  if String.prefix sep s then Some (drop_chars (String.length sep) s)
  else
    match s with
    | EmptyString => None
    | String _ rest => after_first_from sep rest
    end.

Definition split_once_last (sep s : string) : string :=
  match after_first_from sep s with
  | Some t => t
  | None => s
  end.

Fixpoint has_char (c : ascii) (s : string) : bool :=
  match s with
  | EmptyString => false
  | String a rest => Ascii.eqb a c || has_char c rest
  end.

(** [s.split(c)[-1]]: what follows the last [c], or all of [s]. *)
Fixpoint split_last (c : ascii) (s : string) : string :=
  match s with
  | EmptyString => EmptyString
  | String a rest =>
      if has_char c rest then split_last c rest
      else if Ascii.eqb a c then rest else s
  end.

(** The strings of the model are the UTF-8 bytes of the Python texts: a
    byte from 128 to 191 continues a character, any other byte starts
    one. *)
Definition starts_character (a : ascii) : bool :=
  let n := nat_of_ascii a in
  ((n <? 128) || (192 <=? n))%nat.

(** [len(s)]: the number of characters. *)
Fixpoint py_len (s : string) : nat :=
  match s with
  | EmptyString => O
  | String a rest => if starts_character a then S (py_len rest) else py_len rest
  end.

(** [s[:n]]: the first [n] characters. *)
Fixpoint py_take (n : nat) (s : string) : string :=
  match s with
  | EmptyString => EmptyString
  | String a rest =>
      if starts_character a
      then match n with
           | O => EmptyString
           | S k => String a (py_take k rest)
           end
      else String a (py_take n rest)
  end.

(** [s.endswith(p)]. *)
Definition endswith (p s : string) : bool :=
  let n := String.length s in
  let k := String.length p in
  (k <=? n)%nat && string_eqb (String.substring (n - k) k s) p.

(** [s.upper()] on ASCII letters. *)
Definition upper_char (a : ascii) : ascii :=
  let n := nat_of_ascii a in
  if ((97 <=? n) && (n <=? 122))%nat then ascii_of_nat (n - 32) else a.

Fixpoint upper (s : string) : string :=
  match s with
  | EmptyString => EmptyString
  | String a rest => String (upper_char a) (upper rest)
  end.

(** [f"{n}"] and [int(s)] on decimal numerals. *)
Definition str_of_int (n : Z) : string := NilZero.string_of_int (Z.to_int n).

Definition int_of_str (s : string) : option Z :=
  option_map Z.of_int (NilZero.int_of_string s).

(** ** What a handler sends back *)

(** One field of the signup result embed (bot.py 517-527): the success
    field, the spec's [Accepted], or the failure field, its [SlotFull]. *)
Inductive signup_field : Type :=
| FieldSuccess (day : string)
| FieldFailed (day : string).

Record button : Type := mk_button {
  label : string;
  custom_id : string
}.

Inductive reply : Type :=
(* create_team_logic *)
| AlreadyLeader                      (* 305 *)
| NameTaken                          (* 319 *)
| TeamCreated (name : string)        (* 328 *)
| CreateFailed                       (* 334 *)
(* join_team_logic *)
| LeaderCannotJoin                   (* 342 *)
| AlreadyMember                      (* 348 *)
| NoTeamsAvailable                   (* 355 *)
| JoinPrompt (options : list string) (* 378 *)
| Joined (name : string)             (* 369 *)
(* quit_team_logic *)
| LeaderCannotQuit                   (* 427 *)
| QuitDone                           (* 438 *)
| NotPartOfAnyTeam                   (* 441, 601 *)
(* scrim_signup_logic, cancel_sign_up_logic, discard_team_logic *)
| NotALeader                         (* 454, 574, 638 *)
| NoAvailableSlots                   (* 479 *)
| SignupPrompt (options : list string)          (* 538 *)
| SignupResults (fields : list signup_field)    (* 498-532 *)
| NoScrims (name : string)                      (* 571 *)
| CancelPrompt (options : list string)          (* 568 *)
| Cancelled (dates : list string)               (* 559 *)
(* check_schedule_logic *)
| Schedule (name : string) (times : list string)   (* 598 *)
(* discard_team_logic *)
| TeamDiscarded (name : string)                    (* 635 *)
(* participants_logic *)
| Participants (date : string) (names : list string) (view : list button)  (* 648-672 *)
(* reset_database_logic *)
| DatabaseReset.                                   (* 294 *)

(** ** Calls without [await] *)

(** What an expression evaluates to where the source tests it against
    [None]: calling an [async def] function without [await] gives a
    coroutine object and runs none of its body. *)
Inductive py_value (A : Type) : Type :=
| PyNone
| PyObject (a : A)
| PyCoroutine (c : M A).

Arguments PyNone {A}.
Arguments PyObject {A} a.
Arguments PyCoroutine {A} c.

Definition call_without_await {A} (c : M A) : py_value A := PyCoroutine c.

Definition is_not_None {A} (v : py_value A) : bool :=
  match v with
  | PyNone => false
  | PyObject _ => true
  | PyCoroutine _ => true
  end.

(** ** Handlers of the team menu (bot.py 300-442, 604-639) *)

(** [bot.wait_for("message", check=check, timeout=60)] (312-316): the first
    message of the author with at most 3 characters, if one arrives in
    time. *)
Definition wait_for_name (messages : list string) : M string :=
  match find (fun m => (py_len m <=? 3)%nat) messages with
  | Some m => ret m
  | None => raise TimeoutError
  end.

(** [create_team_logic] (300-335); [messages] is what the user types after
    the prompt. *)
Definition create_team_logic (u : user) (messages : list string) : M reply :=
  fun s =>
    match teams_led_by (user_id u) s with
    | _ :: _ => (s, Return AlreadyLeader)
    | [] =>
        try_except
          (content <- wait_for_name messages ;;
           let name := upper content in
           if is_not_None (call_without_await (get_team_id name))
           then ret NameTaken
           else
             let _ := call_without_await (add_team name EmptyString (user_id u)) in
             ret (TeamCreated name))
          (ret CreateFailed) s
    end.

(** The rows in the order of the index [idx_teams_team_name], from which
    [SELECT team_name FROM teams] (352) is answered: by name, byte by byte,
    and by rowid among equal names. *)
Fixpoint insert_by_name (r : team_row) (l : list team_row) : list team_row :=
  match l with
  | [] => [r]
  | x :: rest =>
      if String.ltb (team_name r) (team_name x) then r :: l
      else x :: insert_by_name r rest
  end.

Definition in_name_order (l : list team_row) : list team_row :=
  fold_left (fun sorted r => insert_by_name r sorted) l [].

(** [join_team_logic] up to its prompt (337-360, 374-379). *)
Definition join_team_logic (u : user) : M reply :=
  fun s =>
    match teams_led_by (user_id u) s with
    | _ :: _ => (s, Return LeaderCannotJoin)
    | [] =>
        match filter (fun r => string_eqb (member_name r) (display_name u)) (members s) with
        | _ :: _ => (s, Return AlreadyMember)
        | [] =>
            match map team_name (in_name_order (teams s)) with
            | [] => (s, Return NoTeamsAvailable)
            | names => (s, Return (JoinPrompt names))
            end
        end
    end.

(** [join_team_logic.select_callback] (362-372): the role named after the
    team is added and the nickname prefixed; no statement is executed. *)
Definition join_select_callback (u : user) (selected_team : string) : M (user * reply) :=
  let u' := mk_user (user_id u) (account_name u)
                    (Some (selected_team ++ " " ++ display_name u)%string)
                    (roles u ++ [selected_team]) in
  ret (u', Joined selected_team).

(** [quit_team_logic] (423-442). *)
Definition quit_team_logic (u : user) : M (user * reply) :=
  fun s =>
    match teams_led_by (user_id u) s with
    | _ :: _ => (s, Return (u, LeaderCannotQuit))
    | [] =>
        let names := map team_name (teams s) in
        let team_roles := filter (fun r => existsb (string_eqb r) names) (roles u) in
        match team_roles with
        | [] => (s, Return (u, NotPartOfAnyTeam))
        | _ :: _ =>
            let kept := filter (fun r => negb (existsb (string_eqb r) names)) (roles u) in
            let renamed :=
              match nick u with
              | Some n =>
                  if truthy (Some n)
                     && existsb (fun r => startswith (r ++ " ")%string n) team_roles
                  then Some (split_once_last " - " n)
                  else Some n
              | None => None
              end in
            (s, Return (mk_user (user_id u) (account_name u) renamed kept, QuitDone))
        end
    end.

(** [discard_team_logic] (604-639).  The roles and nicknames of the other
    holders of the team role are platform state outside this model. *)
Definition discard_team_logic (u : user) : M (user * reply) :=
  fun s =>
    match teams_led_by (user_id u) s with
    | [] => (s, Return (u, NotALeader))
    | team :: _ =>
        let name := team_name team in
        let s1 := delete_team_id (id team) s in
        let s2 := delete_members_of (id team) s1 in
        let kept :=
          filter (fun r => negb (string_eqb r (upper name) || string_eqb r "Team leader"))
                 (roles u) in
        let renamed :=
          match nick u with
          | Some n =>
              if truthy (Some n) && startswith (name ++ " ")%string n
              then
                let original := split_once_last " " n in
                Some (if endswith "(C)" original
                      then String.substring 0 (String.length original - 3) original
                      else original)
              else Some n
          | None => None
          end in
        (s2, Return (mk_user (user_id u) (account_name u) renamed kept, TeamDiscarded name))
    end.

(** [reset_database_logic] (287-298). *)
Definition reset_database_logic : M reply :=
  fun s =>
    (mk_store [] [] [] (seq_scrims s) (seq_teams s) (seq_members s), Return DatabaseReset).

(** ** Handlers of the scrim menu (bot.py 444-602, 641-672) *)

(** [scrim_time] of every row of the team: the [signed_up_days] of line 463
    and the rows read at lines 548 and 595. *)
Definition scrim_times_of (name : string) (s : Store) : list (option string) :=
  map scrim_time (teams_named name s).

(** [day not in signed_up_days] (467), negated. *)
Definition signed_up (day : string) (days : list (option string)) : bool :=
  existsb (fun v => column_is v day) days.

(** The block under the transaction of the availability loop (470-476):
    whether the day still has room. *)
Definition slot_open_body (day : string) : M bool :=
  fun s => (s, Return (count_scrim_time day s <? 12)).

(** The availability loop (465-476). *)
Fixpoint available_days (signed : list (option string)) (days : list string)
  : M (list string) :=
  match days with
  | [] => ret []
  | day :: rest =>
      if signed_up day signed then available_days signed rest
      else
        open <- transaction (slot_open_body day) ;;
        more <- available_days signed rest ;;
        ret (if open then day :: more else more)
  end.

(** [scrim_signup_logic] up to its prompt (444-493, 534-539);
    [days_of_week] are the seven dates from today on, as [dd/mm]. *)
Definition scrim_signup_logic (u : user) (days_of_week : list string) : M reply :=
  fun s =>
    match teams_led_by (user_id u) s with
    | [] => (s, Return NotALeader)
    | team :: _ =>
        (days <- available_days (scrim_times_of (team_name team) s) days_of_week ;;
         match days with
         | [] => ret NoAvailableSlots
         | _ :: _ => ret (SignupPrompt days)
         end) s
    end.

(** The block under the transaction of the signup callback (506-527): the
    count is read again and the row is inserted while it is below 12. *)
Definition signup_day_body (name : string) (leader : Z) (day : string) : M signup_field :=
  fun s =>
    if count_scrim_time day s <? 12
    then (_ <- insert_team name day leader ;; ret (FieldSuccess day)) s
    else (s, Return (FieldFailed day)).

(** The loop of the callback (504-527). *)
Fixpoint signup_days (name : string) (leader : Z) (selected_days : list string)
  : M (list signup_field) :=
  match selected_days with
  | [] => ret []
  | day :: rest =>
      field <- transaction (signup_day_body name leader day) ;;
      fields <- signup_days name leader rest ;;
      ret (field :: fields)
  end.

(** [scrim_signup_logic.select_callback] (495-532); [name] and [leader] are
    the [team_name] and [leader_id] the closure captured. *)
Definition signup_select_callback (name : string) (leader : Z) (selected_days : list string)
  : M reply :=
  fields <- signup_days name leader selected_days ;;
  ret (SignupResults fields).

(** The dates kept by [row[0] for row in cursor.fetchall() if row[0]]
    (549, 596). *)
Definition truthy_times (name : string) (s : Store) : list string :=
  flat_map (fun v => match v with
                     | Some t => if truthy v then [t] else []
                     | None => []
                     end)
           (scrim_times_of name s).

(** The values of the cancel menu (551): [scrim_time[:100]]. *)
Definition cancel_options (name : string) (s : Store) : list string :=
  map (py_take 100) (truthy_times name s).

(** [cancel_sign_up_logic] up to its prompt (541-552, 564-575). *)
Definition cancel_sign_up_logic (u : user) : M reply :=
  fun s =>
    match teams_led_by (user_id u) s with
    | [] => (s, Return NotALeader)
    | team :: _ =>
        match cancel_options (team_name team) s with
        | [] => (s, Return (NoScrims (team_name team)))
        | options => (s, Return (CancelPrompt options))
        end
    end.

(** [cancel_sign_up_logic.select_callback] (554-562). *)
Definition cancel_select_callback (name : string) (selected_dates : list string) : M reply :=
  fun s =>
    (fold_left (fun acc date => delete_team_time name date acc) selected_dates s,
     Return (Cancelled selected_dates)).

(** The team of the inner join of lines 585-591: the first member row of
    that name whose team row exists. *)
Definition team_of_member (who : string) (s : Store) : option team_row :=
  hd_error
    (flat_map (fun m => filter (fun t => id t =? team_id m) (teams s))
              (filter (fun m => string_eqb (member_name m) who) (members s))).

(** [check_schedule_logic] (577-602). *)
Definition check_schedule_logic (u : user) : M reply :=
  fun s =>
    let team_data :=
      match teams_led_by (user_id u) s with
      | team :: _ => Some team
      | [] => team_of_member (display_name u) s
      end in
    match team_data with
    | Some team => (s, Return (Schedule (team_name team) (truthy_times (team_name team) s)))
    | None => (s, Return NotPartOfAnyTeam)
    end.

(** The navigation buttons of the participants view (663-669). *)
Definition participants_view (day_offset : Z) : list button :=
  (if day_offset >? 0
   then [mk_button "Previous Day" ("participants_prev_" ++ str_of_int (day_offset - 1))%string]
   else [])
  ++ (if day_offset <? 6
      then [mk_button "Next Day" ("participants_next_" ++ str_of_int (day_offset + 1))%string]
      else [])
  ++ [mk_button "Back to Menu" "back_to_menu"].

(** [participants_logic] (641-672); [date_of] gives the [dd/mm] date that
    lies the given number of days after today. *)
Definition participants_logic (date_of : Z -> string) (day_offset : Z) : M reply :=
  fun s =>
    let scrim_date := date_of day_offset in
    (s, Return (Participants scrim_date (teams_at scrim_date s) (participants_view day_offset))).

(** The branches of [on_interaction] that open the participants view
    (227-231): the day offset [participants_logic] is called with, [None]
    for the ids of the other branches. *)
Definition on_interaction_day_offset (cid : string) : option (result Z) :=
  if string_eqb cid "participants" then Some (Return 0)
  else if startswith "participants_prev_" cid || startswith "participants_next_" cid
       then Some (match int_of_str (split_last "_"%char cid) with
                  | Some n => Return n
                  | None => Raise ValueError
                  end)
       else None.

(** * Stores and steps used in the properties *)

(** The store with the single team [ABC] led by user 7, as the team row of
    [create_team_logic] would be. *)
Definition store_abc : Store :=
  mk_store [] [mk_team 1 "ABC" (Some EmptyString) 7] [] 0 1 0.

Definition bob : user := mk_user 9 "bob" None [].


(** Team [ABC] of leader 7 with its row from creation, one signup for
    [05/06] and the member [bob]. *)
Definition store_signed : Store :=
  mk_store []
           [mk_team 1 "ABC" (Some EmptyString) 7; mk_team 2 "ABC" (Some "05/06"%string) 7]
           [mk_member 1 1 "bob"]
           0 2 1.

Definition ann : user := mk_user 7 "ann" (Some "ABC ann(C)"%string) ["Team leader"%string].

(** The table of [s'] holds no more rows of any kind than that of [s]. *)
Definition teams_shrink (s s' : Store) : Prop :=
  forall p : team_row -> bool,
    (List.length (filter p (teams s')) <= List.length (filter p (teams s)))%nat.

Definition members_shrink (s s' : Store) : Prop :=
  forall p : member_row -> bool,
    (List.length (filter p (members s')) <= List.length (filter p (members s)))%nat.

(** One step of the store: a handler of the bot run to its end, or one of
    the four blocks written under [db.transaction()] run and committed.  The
    blocks are steps of their own, so what follows holds of them whether or
    not their wrapper lets them run. *)
Inductive step : Store -> Store -> Prop :=
| step_create_team (u : user) (messages : list string) (s : Store) :
    step s (store_after (create_team_logic u messages) s)
| step_join (u : user) (team : string) (s : Store) :
    step s (store_after (join_select_callback u team) s)
| step_quit (u : user) (s : Store) :
    step s (store_after (quit_team_logic u) s)
| step_discard (u : user) (s : Store) :
    step s (store_after (discard_team_logic u) s)
| step_reset (s : Store) :
    step s (store_after reset_database_logic s)
| step_signup_prompt (u : user) (days : list string) (s : Store) :
    step s (store_after (scrim_signup_logic u days) s)
| step_signup (name : string) (leader : Z) (days : list string) (s : Store) :
    step s (store_after (signup_select_callback name leader days) s)
| step_cancel (name : string) (dates : list string) (s : Store) :
    step s (store_after (cancel_select_callback name dates) s)
| step_add_scrim_time (period : string) (s : Store) :
    step s (store_after (add_scrim_time period) s)
| step_add_team_member (team : Z) (name : string) (s : Store) :
    step s (store_after (add_team_member team name) s)
| block_signup_day (name : string) (leader : Z) (day : string) (s : Store) :
    step s (store_after (transaction_generator (signup_day_body name leader day)) s)
| block_add_team_member (team : Z) (name : string) (s : Store) :
    step s (store_after (transaction_generator (add_team_member_body team name)) s)
| block_add_team (name : string) (leader : Z) (s : Store) :
    step s (store_after (transaction_generator (add_team_body name EmptyString leader)) s)
| block_add_scrim_time (period : string) (s : Store) :
    step s (store_after (transaction_generator (add_scrim_time_body period)) s).

(** The stores the bot can be in, from the empty tables of [init_db]. *)
Inductive reachable : Store -> Prop :=
| reachable_init : reachable empty_store
| reachable_step (s s' : Store) : reachable s -> step s s' -> reachable s'.

(** A step that adds a team row adds the row of a new team or a signup for
    a day that had fewer than 12 rows. *)
Definition adds_team_row (s s' : Store) : Prop :=
  exists row,
    teams s' = teams s ++ [row]
    /\ (scrim_time row = Some EmptyString
        \/ exists day, scrim_time row = Some day /\ count_scrim_time day s < 12).

(** A step that adds a member row adds it to a team that had fewer than 5. *)
Definition adds_member_row (s s' : Store) : Prop :=
  exists row, members s' = members s ++ [row] /\ count_members (team_id row) s < 5.

(** Twelve teams signed up for [05/06], and team [ABC] of leader 7 not yet. *)
Definition store_full : Store :=
  mk_store []
           (map (fun n => mk_team n ("T" ++ str_of_int n)%string (Some "05/06"%string) (100 + n))
                [1; 2; 3; 4; 5; 6; 7; 8; 9; 10; 11; 12]
            ++ [mk_team 13 "ABC" (Some EmptyString) 7])
           [] 0 13 0.

(** Team [ABC] with four members. *)
Definition store_four : Store :=
  mk_store []
           [mk_team 1 "ABC" (Some EmptyString) 7]
           [mk_member 1 1 "bob"; mk_member 2 1 "cat"; mk_member 3 1 "dan"; mk_member 4 1 "eli"]
           0 1 4.

Definition eve : user := mk_user 10 "eve" None [].

(** The day offsets at which the participants view is shown: offset 0 from
    the menu button, and from a shown view the offset that one of its own
    buttons sends back through [on_interaction]. *)
Inductive shown : Z -> Prop :=
| shown_menu (n : Z) :
    on_interaction_day_offset "participants" = Some (Return n) -> shown n
| shown_click (o n : Z) (b : button) :
    shown o ->
    In b (participants_view o) ->
    on_interaction_day_offset (custom_id b) = Some (Return n) ->
    shown n.

(** * The rest of the bot *)

(** ** Listing teams (bot.py 69-70, 272-285, 381-421) *)

(** [get_scrim_times] (69-70). *)
Definition get_scrim_times : M (list string) :=
  fun s => (s, Return (map time_period (scrims s))).

(** Python truthiness of what a call gave: a coroutine object, as any
    object without [__bool__] or [__len__], is true. *)
Definition is_truthy {A} (v : py_value (list A)) : bool :=
  match v with
  | PyNone => false
  | PyObject l => match l with [] => false | _ :: _ => true end
  | PyCoroutine _ => true
  end.

(** [for x in v], a comprehension over [v] and [sep.join(v)]: a list is
    walked, anything else here is not iterable. *)
Definition iterate {A} (v : py_value (list A)) : M (list A) :=
  match v with
  | PyObject l => ret l
  | PyNone => raise TypeError
  | PyCoroutine _ => raise TypeError
  end.

(** A call whose argument is itself a coroutine object.  The coroutine it
    gives is never awaited by the source; were it, the statement could not
    bind the argument. *)
Definition applied_to {A B} (f : A -> M B) (arg : py_value A) : M B :=
  match arg with
  | PyObject a => f a
  | PyNone => raise TypeError
  | PyCoroutine _ => raise TypeError
  end.

(** [get_team_members] (105-107) on what [get_team_id] returns: [None] is
    bound as [NULL], which no [team_id] equals. *)
Definition get_team_members_of (team : option Z) : M (list string) :=
  match team with
  | Some n => get_team_members n
  | None => ret []
  end.

(** [sep.join(parts)]. *)
Fixpoint join (sep : string) (parts : list string) : string :=
  match parts with
  | [] => EmptyString
  | [p] => p
  | p :: rest => (p ++ sep ++ join sep rest)%string
  end.

Definition is_space (a : ascii) : bool :=
  let n := nat_of_ascii a in
  (((9 <=? n) && (n <=? 13)) || (n =? 32) || ((28 <=? n) && (n <=? 31)))%nat.

Fixpoint lstrip (s : string) : string :=
  match s with
  | EmptyString => EmptyString
  | String a rest => if is_space a then lstrip rest else s
  end.

Fixpoint rstrip (s : string) : string :=
  match s with
  | EmptyString => EmptyString
  | String a rest =>
      match rstrip rest with
      | EmptyString => if is_space a then EmptyString else String a EmptyString
      | kept => String a kept
      end
  end.

(** [s.strip()], on ASCII white space. *)
Definition strip (s : string) : string := rstrip (lstrip s).

(** One entry of a team list: the team, the leader as shown (only in
    [check_teams_logic]) and the text of its members.  The emoji and the
    running number of the field name are left to the rendering. *)
Record team_field : Type := mk_field {
  field_team : string;
  field_leader : option string;
  field_members : string
}.

Inductive listing : Type :=
| TeamList (entries : list team_field)   (* 281, 386-418 *)
| NoTeams.                               (* 284, 420 *)

Fixpoint for_each {A B} (f : A -> M B) (l : list A) : M (list B) :=
  match l with
  | [] => ret []
  | x :: rest => y <- f x ;; ys <- for_each f rest ;; ret (y :: ys)
  end.

(** The loop body of [list_teams_logic] (278-280). *)
Definition list_teams_entry (name : string) : M team_field :=
  let team := call_without_await (get_team_id name) in
  let found := call_without_await (applied_to get_team_members_of team) in
  if is_truthy found
  then (names <- iterate found ;; ret (mk_field name None (join ", " names)))
  else ret (mk_field name None "No members").

(** [list_teams_logic] (272-285). *)
Definition list_teams_logic (time : string) : M listing :=
  let found := call_without_await (get_teams time) in
  if is_truthy found
  then (names <- iterate found ;;
        entries <- for_each list_teams_entry names ;;
        ret (TeamList entries))
  else ret NoTeams.

(** The leader's name as [check_teams_logic] shows it (395-404); [guild]
    gives the display name of the members the guild knows. *)
Definition shown_leader (guild : Z -> option string) (name : string) (leader : Z) : string :=
  match guild leader with
  | Some display =>
      let n1 := if startswith (name ++ " ") display
                then strip (drop_chars (String.length name + 1) display)
                else display in
      let n2 := if endswith "(C)" n1
                then strip (String.substring 0 (String.length n1 - 3) n1)
                else n1 in
      (n2 ++ " (C)")%string
  | None => "(Leader not found)"%string
  end.

(** The loop body of [check_teams_logic] (394-415). *)
Definition check_teams_entry (guild : Z -> option string) (row : team_row) : M team_field :=
  let leader := shown_leader guild (team_name row) (leader_id row) in
  let team := call_without_await (get_team_id (team_name row)) in
  let found := call_without_await (applied_to get_team_members_of team) in
  names <- iterate found ;;
  ret (mk_field (team_name row) (Some leader)
                (join ", " (filter (fun n => negb (string_eqb n leader)) names))).

(** [check_teams_logic] (381-421). *)
Definition check_teams_logic (guild : Z -> option string) : M listing :=
  fun s =>
    match teams s with
    | [] => (s, Return NoTeams)
    | rows => (entries <- for_each (check_teams_entry guild) rows ;; ret (TeamList entries)) s
    end.

(** ** The menus and [on_interaction] (bot.py 169-250) *)

(** [MenuView] (169-180). *)
Definition MenuView : list button :=
  [mk_button "Team" "category_team"; mk_button "Scrim" "category_scrim";
   mk_button "All Teams" "check_teams"; mk_button "Participants" "participants";
   mk_button "Reset Database" "reset_database"].

(** [TeamView] (183-190). *)
Definition TeamView : list button :=
  [mk_button "Create Team" "create_team"; mk_button "Join Team" "join_team";
   mk_button "Quit Team" "quit_team"; mk_button "Discard Team" "discard_team";
   mk_button "Back to Menu" "back_to_menu"].

(** [ScrimView] (192-198). *)
Definition ScrimView : list button :=
  [mk_button "Scrim Signup" "scrim_signup"; mk_button "Cancel Sign Up" "cancel_sign_up";
   mk_button "Check Schedule" "check_schedule"; mk_button "Back to Menu" "back_to_menu"].

(** The buttons under the success message of [create_team_logic]
    (329-331). *)
Definition created_view : list button :=
  [mk_button "Sign Up for Scrim" "scrim_signup"; mk_button "Back to Menu" "back_to_menu"].

(** What a component interaction is handed to. *)
Inductive route : Type :=
| ToListTeams (time : string)
| ToResetDatabase
| ToCreateTeam
| ToJoinTeam
| ToCheckTeams
| ToQuitTeam
| ToScrimSignup
| ToCancelSignUp
| ToCheckSchedule
| ToDiscardTeam
| ToParticipants (day_offset : result Z)
| ToTeamView
| ToScrimView
| ToMenu.

(** The chain of tests of [on_interaction] on the [custom_id] (206-250);
    [None] when no branch takes it.  [int] reads the numerals that an
    f-string writes. *)
Definition on_interaction (cid : string) : option route :=
  if string_eqb cid "list_teams" then Some (ToListTeams "21:00")
  else if string_eqb cid "reset_database" then Some ToResetDatabase
  else if string_eqb cid "create_team" then Some ToCreateTeam
  else if string_eqb cid "join_team" then Some ToJoinTeam
  else if string_eqb cid "check_teams" then Some ToCheckTeams
  else if string_eqb cid "quit_team" then Some ToQuitTeam
  else if string_eqb cid "scrim_signup" then Some ToScrimSignup
  else if string_eqb cid "cancel_sign_up" then Some ToCancelSignUp
  else if string_eqb cid "check_schedule" then Some ToCheckSchedule
  else if string_eqb cid "discard_team" then Some ToDiscardTeam
  else if string_eqb cid "participants" then Some (ToParticipants (Return 0))
  else if startswith "participants_prev_" cid || startswith "participants_next_" cid
       then Some (ToParticipants
                    (match int_of_str (split_last "_"%char cid) with
                     | Some n => Return n
                     | None => Raise ValueError
                     end))
  else if string_eqb cid "category_team" then Some ToTeamView
  else if string_eqb cid "category_scrim" then Some ToScrimView
  else if string_eqb cid "back_to_menu" then Some ToMenu
  else None.

(** ** The lock registry (database.py 9, 38-45) *)

(** [_locks]: for every lock id seen so far, whether its [asyncio.Lock] is
    held.  Coroutines suspended on a held lock are not part of the model:
    an [acquire] that has to wait is reported as such. *)
Definition lock_table : Type := list (string * bool).

Fixpoint lock_of (lock_id : string) (t : lock_table) : option bool :=
  match t with
  | [] => None
  | (k, held) :: rest => if string_eqb k lock_id then Some held else lock_of lock_id rest
  end.

Fixpoint set_lock (lock_id : string) (held : bool) (t : lock_table) : lock_table :=
  match t with
  | [] => []
  | (k, h) :: rest =>
      if string_eqb k lock_id then (k, held) :: rest
      else (k, h) :: set_lock lock_id held rest
  end.

Inductive acquired : Type :=
| AcquireReturns (v : bool)   (* [Lock.acquire] returns [True] *)
| AcquireWaits.               (* the lock is held: the caller is suspended *)

(** [acquire_lock] (38-41). *)
Definition acquire_lock (lock_id : string) (t : lock_table) : lock_table * acquired :=
  let t1 := match lock_of lock_id t with
            | Some _ => t
            | None => t ++ [(lock_id, false)]
            end in
  match lock_of lock_id t1 with
  | Some false => (set_lock lock_id true t1, AcquireReturns true)
  | _ => (t1, AcquireWaits)
  end.

Inductive released : Type :=
| ReleaseReturns
| ReleaseRaises.   (* [RuntimeError]: the lock is not acquired *)

(** [release_lock] (43-45). *)
Definition release_lock (lock_id : string) (t : lock_table) : lock_table * released :=
  match lock_of lock_id t with
  | None => (t, ReleaseReturns)
  | Some true => (set_lock lock_id false t, ReleaseReturns)
  | Some false => (t, ReleaseRaises)
  end.

(** ** The schema (bot.py 18-48, database.py 59-97) *)

Record column : Type := mk_column {
  column_name : string;
  column_type : string;
  primary_key_autoincrement : bool;
  unique : bool
}.

Record table : Type := mk_table {
  table_name : string;
  table_columns : list column;
  foreign_keys : list (string * string)   (* column, referenced table(column) *)
}.

Record sql_index : Type := mk_index {
  index_name : string;
  index_table : string;
  index_column : string
}.

Record Schema : Type := mk_schema {
  schema_tables : list table;
  schema_indexes : list sql_index
}.

Definition has_table (name : string) (sch : Schema) : bool :=
  existsb (fun t => string_eqb (table_name t) name) (schema_tables sch).

Definition has_index (name : string) (sch : Schema) : bool :=
  existsb (fun i => string_eqb (index_name i) name) (schema_indexes sch).

(** [CREATE TABLE IF NOT EXISTS]. *)
Definition create_table (t : table) (sch : Schema) : Schema :=
  if has_table (table_name t) sch then sch
  else mk_schema (schema_tables sch ++ [t]) (schema_indexes sch).

(** [CREATE INDEX IF NOT EXISTS]. *)
Definition create_index (i : sql_index) (sch : Schema) : Schema :=
  if has_index (index_name i) sch then sch
  else mk_schema (schema_tables sch) (schema_indexes sch ++ [i]).

Definition id_column : column := mk_column "id" "INTEGER" true false.

Definition scrims_table : table :=
  mk_table "scrims" [id_column; mk_column "time_period" "TEXT" false true] [].

Definition members_table : table :=
  mk_table "members"
           [id_column; mk_column "team_id" "INTEGER" false false;
            mk_column "member_name" "TEXT" false false]
           [("team_id", "teams(id)")%string].

(** The [teams] table as bot.py declares it (26-34). *)
Definition teams_table_bot : table :=
  mk_table "teams"
           [id_column; mk_column "team_name" "TEXT" false false;
            mk_column "scrim_time" "TEXT" false false;
            mk_column "leader_id" "INTEGER" false false]
           [("leader_id", "members(id)")%string].

(** The [teams] table as database.py declares it (71-79):
    [team_name TEXT UNIQUE]. *)
Definition teams_table_init : table :=
  mk_table "teams"
           [id_column; mk_column "team_name" "TEXT" false true;
            mk_column "scrim_time" "TEXT" false false;
            mk_column "leader_id" "INTEGER" false false]
           [("leader_id", "members(id)")%string].

Definition create_indexes (sch : Schema) : Schema :=
  create_index (mk_index "idx_members_member_name" "members" "member_name")
    (create_index (mk_index "idx_teams_scrim_time" "teams" "scrim_time")
       (create_index (mk_index "idx_teams_team_name" "teams" "team_name")
          (create_index (mk_index "idx_scrims_time_period" "scrims" "time_period") sch))).

(** The statements bot.py runs when it is imported (18-48). *)
Definition bot_setup (sch : Schema) : Schema :=
  create_indexes (create_table members_table (create_table teams_table_bot
                    (create_table scrims_table sch))).

(** [init_db] (database.py 59-97), run from [on_ready]. *)
Definition init_db (sch : Schema) : Schema :=
  create_indexes (create_table members_table (create_table teams_table_init
                    (create_table scrims_table sch))).

(** Whether a column of a table of the schema is declared [UNIQUE]. *)
Definition declared_unique (tname cname : string) (sch : Schema) : option bool :=
  match find (fun t => string_eqb (table_name t) tname) (schema_tables sch) with
  | Some t => option_map unique
                (find (fun c => string_eqb (column_name c) cname) (table_columns t))
  | None => None
  end.

(** ** The handlers as steps of the store *)

(** One call of a handler or helper of bot.py as written, run to its end,
    whatever it answers or raises. *)
Inductive handler_step : Store -> Store -> Prop :=
| by_create_team (u : user) (messages : list string) (s : Store) :
    handler_step s (store_after (create_team_logic u messages) s)
| by_join_prompt (u : user) (s : Store) :
    handler_step s (store_after (join_team_logic u) s)
| by_join (u : user) (team : string) (s : Store) :
    handler_step s (store_after (join_select_callback u team) s)
| by_quit (u : user) (s : Store) :
    handler_step s (store_after (quit_team_logic u) s)
| by_discard (u : user) (s : Store) :
    handler_step s (store_after (discard_team_logic u) s)
| by_reset (s : Store) :
    handler_step s (store_after reset_database_logic s)
| by_signup_prompt (u : user) (days : list string) (s : Store) :
    handler_step s (store_after (scrim_signup_logic u days) s)
| by_signup (name : string) (leader : Z) (days : list string) (s : Store) :
    handler_step s (store_after (signup_select_callback name leader days) s)
| by_cancel_prompt (u : user) (s : Store) :
    handler_step s (store_after (cancel_sign_up_logic u) s)
| by_cancel (name : string) (dates : list string) (s : Store) :
    handler_step s (store_after (cancel_select_callback name dates) s)
| by_check_schedule (u : user) (s : Store) :
    handler_step s (store_after (check_schedule_logic u) s)
| by_participants (date_of : Z -> string) (day_offset : Z) (s : Store) :
    handler_step s (store_after (participants_logic date_of day_offset) s)
| by_list_teams (time : string) (s : Store) :
    handler_step s (store_after (list_teams_logic time) s)
| by_check_teams (guild : Z -> option string) (s : Store) :
    handler_step s (store_after (check_teams_logic guild) s)
| by_add_scrim_time (period : string) (s : Store) :
    handler_step s (store_after (add_scrim_time period) s)
| by_add_team (name time : string) (leader : Z) (s : Store) :
    handler_step s (store_after (add_team name time leader) s)
| by_add_team_member (team : Z) (name : string) (s : Store) :
    handler_step s (store_after (add_team_member team name) s).

(** The stores the bot as written gets to from the empty tables. *)
Inductive handler_reachable : Store -> Prop :=
| handler_reachable_init : handler_reachable empty_store
| handler_reachable_step (s s' : Store) :
    handler_reachable s -> handler_step s s' -> handler_reachable s'.

(** No table of [s'] has more rows of any kind than it has in [s], and no
    rowid has been handed out in between. *)
Definition no_row_added (s s' : Store) : Prop :=
  (forall p, (List.length (filter p (scrims s')) <= List.length (filter p (scrims s)))%nat)
  /\ teams_shrink s s'
  /\ members_shrink s s'
  /\ seq_scrims s' = seq_scrims s
  /\ seq_teams s' = seq_teams s
  /\ seq_members s' = seq_members s.

(** ** Definitions used in the properties of the rest of the bot *)

(** A row goes with the cancel callback when it is a row of the team for
    one of the dates. *)
Definition cancelled_row (name : string) (dates : list string) (r : team_row) : bool :=
  string_eqb (team_name r) name && existsb (fun d => column_is (scrim_time r) d) dates.

(** The store after the same user has pressed Discard Team [n] times. *)
Fixpoint discard_times (n : nat) (u : user) (s : Store) : Store :=
  match n with
  | O => s
  | S k =>
      match discard_team_logic u s with
      | (s1, Return (u1, _)) => discard_times k u1 s1
      | (s1, Raise _) => s1
      end
  end.

(** [n] dashes before [t]. *)
Fixpoint pad (n : nat) (t : string) : string :=
  match n with
  | O => t
  | S k => String "-" (pad k t)
  end.

(** Team [ABC] with a single row whose date has 101 characters. *)
Definition store_long : Store :=
  mk_store [] [mk_team 1 "ABC" (Some (pad 96 "05/06")) 7] [] 0 1 0.

(** The rowids of a table are pairwise distinct and none is above the
    highest one handed out. *)
Definition ids_fresh {R} (key : R -> Z) (rows : list R) (seq : Z) : Prop :=
  NoDup (map key rows) /\ forall r, In r rows -> key r <= seq.

Definition well_formed (s : Store) : Prop :=
  ids_fresh scrim_id (scrims s) (seq_scrims s)
  /\ ids_fresh id (teams s) (seq_teams s)
  /\ ids_fresh member_id (members s) (seq_members s)
  /\ NoDup (map time_period (scrims s)).

(** Both set-ups have the same shape and differ in the [teams] table they
    would create. *)
Definition setup_with (teams_table : table) (sch : Schema) : Schema :=
  create_indexes (create_table members_table (create_table teams_table
                    (create_table scrims_table sch))).

(** [n] times the letter e with an acute accent, two bytes in UTF-8. *)
Fixpoint accented (n : nat) : string :=
  match n with
  | O => EmptyString
  | S k => String (ascii_of_nat 195) (String (ascii_of_nat 169) (accented k))
  end.

(** Team [ABC] with a single row whose date has 60 characters in 120
    bytes. *)
Definition store_accented : Store :=
  mk_store [] [mk_team 1 "ABC" (Some (accented 60)) 7] [] 0 1 0.

(** * Properties *)

(** ** The transaction wrapper *)

Section Wrapper.

Variable A : Type.
Variable body : M A.

(** Entering [async with db.transaction()] raises before the block runs:
    the store is the one before and the block's result is lost. *)
Lemma transaction_raises (s : Store) : transaction body s = (s, Raise TypeError).
Proof. reflexivity. Qed.

(** Driven as a context manager, the generator keeps the block's writes
    when the block returns. *)
Lemma transaction_generator_commits (s s' : Store) (a : A) :
  body s = (s', Return a) -> transaction_generator body s = (s', Return a).
Proof. unfold transaction_generator. intros ->. reflexivity. Qed.

(** Driven as a context manager, the generator drops the block's writes
    and raises the block's exception again. *)
Lemma transaction_generator_rolls_back (s s' : Store) (e : exn) :
  body s = (s', Raise e) -> transaction_generator body s = (s, Raise e).
Proof. unfold transaction_generator. intros ->. reflexivity. Qed.

End Wrapper.

(** A handler that enters a transaction first raises [TypeError] and leaves
    the store as it was. *)
Lemma bind_transaction_raises {A B} (body : M A) (k : A -> M B) (s : Store) :
  (x <- transaction body ;; k x) s = (s, Raise TypeError).
Proof. reflexivity. Qed.

(** C7, where the code departs from the specification: a block that inserts
    the slot [05/06] into the empty store returns normally and would be
    committed by the generator, yet [async with db.transaction()] around it
    raises [TypeError], runs nothing and commits nothing; the same holds for
    every block and every store. *)
Theorem transaction_never_commits :
  transaction (add_scrim_time_body "05/06") empty_store = (empty_store, Raise TypeError)
  /\ transaction_generator (add_scrim_time_body "05/06") empty_store
     = (mk_store [mk_scrim 1 "05/06"] [] [] 1 0 0, Return 1)
  /\ (forall (A : Type) (body : M A) (s : Store),
        store_after (transaction body) s = s
        /\ outcome (transaction body) s = Raise TypeError).
Proof.
  split; [reflexivity|]. split; [reflexivity|].
  intros A body s. split; reflexivity.
Qed.

(** ** add_scrim_time *)

(** With the generator driven as a context manager, a new period is
    inserted with answer [True] and a known one is answered [False] with the
    store as before. *)
Lemma add_scrim_time_block_outcomes (period : string) (s : Store) :
  let m := try_except (_ <- transaction_generator (add_scrim_time_body period) ;; ret true)
                      (ret false) in
  if existsb (fun r => string_eqb (time_period r) period) (scrims s)
  then m s = (s, Return false)
  else outcome m s = Return true
       /\ scrims (store_after m s)
          = scrims s ++ [mk_scrim (next_id scrim_id (scrims s) (seq_scrims s)) period].
Proof.
  cbv beta zeta.
  unfold try_except, bind, transaction_generator, add_scrim_time_body, insert_scrim,
    store_after, outcome, ret.
  destruct (existsb _ (scrims s)); [reflexivity|]. split; reflexivity.
Qed.

(** C8, where the code departs from the specification: [add_scrim_time]
    never raises, but it answers [False] for every period and never inserts;
    on the empty store the new period [05/06] is answered [False] and no
    slot is stored. *)
Theorem add_scrim_time_always_false :
  add_scrim_time "05/06" empty_store = (empty_store, Return false)
  /\ (forall (period : string) (s : Store), add_scrim_time period s = (s, Return false)).
Proof. split; [reflexivity|]. intros period s. reflexivity. Qed.

(** ** Joining and quitting *)

Lemma join_select_callback_store (u : user) (team : string) (s : Store) :
  store_after (join_select_callback u team) s = s.
Proof. reflexivity. Qed.

Lemma quit_team_logic_store (u : user) (s : Store) :
  store_after (quit_team_logic u) s = s.
Proof.
  unfold store_after, quit_team_logic.
  destruct (teams_led_by (user_id u) s); [|reflexivity].
  destruct (filter _ (roles u)); reflexivity.
Qed.

(** C2, where the code departs from the specification: user [bob], no leader
    and no member, is offered team [ABC] and picks it; the callback answers
    with the success message, yet the [members] table is as empty as before
    and the member list of the team does not contain him.  No joining user
    ever changes the store. *)
Theorem join_inserts_no_membership :
  outcome (join_team_logic bob) store_abc = Return (JoinPrompt ["ABC"%string])
  /\ (exists u', outcome (join_select_callback bob "ABC") store_abc
                 = Return (u', Joined "ABC"))
  /\ members (store_after (join_select_callback bob "ABC") store_abc) = []
  /\ outcome (get_team_members 1) (store_after (join_select_callback bob "ABC") store_abc)
     = Return []
  /\ (forall (u : user) (team : string) (s : Store),
        store_after (join_select_callback u team) s = s).
Proof.
  split; [reflexivity|]. split; [eexists; reflexivity|].
  split; [reflexivity|]. split; [reflexivity|]. intros; reflexivity.
Qed.






(** ** Discarding a team *)

(** What [discard_team_logic] deletes: the one team row the leader query
    returns first, and the members that point at it. *)
Lemma discard_team_logic_deletes (u : user) (s : Store) (team : team_row) (rest : list team_row) :
  teams_led_by (user_id u) s = team :: rest ->
  teams (store_after (discard_team_logic u) s)
  = filter (fun r => negb (id r =? id team)) (teams s)
  /\ members (store_after (discard_team_logic u) s)
     = filter (fun r => negb (team_id r =? id team)) (members s).
Proof.
  intros H. unfold store_after, discard_team_logic. rewrite H. split; reflexivity.
Qed.

(** C4, where the code departs from the specification: leader [ann] discards
    team [ABC], which is signed up for [05/06].  The handler reports the
    team as discarded and deletes its first row and its members, but the
    signup row stays: the participants of [05/06] still list [ABC], the
    schedule of [ann] still shows [05/06], and [ann] still leads a team. *)
Theorem discard_leaves_signup_rows :
  let s' := store_after (discard_team_logic ann) store_signed in
  (exists u', outcome (discard_team_logic ann) store_signed = Return (u', TeamDiscarded "ABC"))
  /\ teams s' = [mk_team 2 "ABC" (Some "05/06"%string) 7]
  /\ members s' = []
  /\ (exists view, outcome (participants_logic (fun _ => "05/06"%string) 0) s'
                   = Return (Participants "05/06" ["ABC"%string] view))
  /\ outcome (check_schedule_logic ann) s' = Return (Schedule "ABC" ["05/06"%string])
  /\ teams_led_by (user_id ann) s' <> [].
Proof.
  cbv zeta. split; [eexists; reflexivity|].
  split; [reflexivity|]. split; [reflexivity|].
  split; [eexists; reflexivity|]. split; [reflexivity|].
  vm_compute. discriminate.
Qed.

(** ** Counting rows *)

Lemma filter_filter_length {X} (p q : X -> bool) (l : list X) :
  (List.length (filter p (filter q l)) <= List.length (filter p l))%nat.
Proof.
  induction l as [|x l IH]; simpl; [lia|].
  destruct (q x); simpl; destruct (p x); simpl; lia.
Qed.

Lemma filter_nil_length {X} (p : X -> bool) (l : list X) :
  (List.length (filter p ([] : list X)) <= List.length (filter p l))%nat.
Proof. simpl. lia. Qed.

Lemma teams_shrink_refl (s : Store) : teams_shrink s s.
Proof. intros p. lia. Qed.

Lemma members_shrink_refl (s : Store) : members_shrink s s.
Proof. intros p. lia. Qed.

Lemma teams_shrink_trans (s1 s2 s3 : Store) :
  teams_shrink s1 s2 -> teams_shrink s2 s3 -> teams_shrink s1 s3.
Proof. intros H12 H23 p. specialize (H12 p). specialize (H23 p). lia. Qed.

Lemma delete_team_time_shrinks (name date : string) (s : Store) :
  teams_shrink s (delete_team_time name date s).
Proof. intros p. apply filter_filter_length. Qed.

Lemma cancel_dates_shrink (name : string) (dates : list string) (s : Store) :
  teams_shrink s (fold_left (fun acc date => delete_team_time name date acc) dates s).
Proof.
  revert s. induction dates as [|d dates IH]; intros s; simpl.
  - apply teams_shrink_refl.
  - eapply teams_shrink_trans; [apply delete_team_time_shrinks | apply IH].
Qed.

Lemma cancel_dates_members (name : string) (dates : list string) (s : Store) :
  members (fold_left (fun acc date => delete_team_time name date acc) dates s) = members s.
Proof.
  revert s. induction dates as [|d dates IH]; intros s; simpl; [reflexivity|].
  rewrite IH. reflexivity.
Qed.

Lemma count_scrim_time_shrinks (day : string) (s s' : Store) :
  teams_shrink s s' -> count_scrim_time day s' <= count_scrim_time day s.
Proof. intros H. unfold count_scrim_time. specialize (H (fun r => column_is (scrim_time r) day)). lia. Qed.

Lemma count_members_shrinks (team : Z) (s s' : Store) :
  members_shrink s s' -> count_members team s' <= count_members team s.
Proof. intros H. unfold count_members. specialize (H (fun r => team_id r =? team)). lia. Qed.

Lemma count_scrim_time_insert (name time : string) (leader : Z) (day : string) (s : Store) :
  count_scrim_time day (store_after (insert_team name time leader) s)
  = count_scrim_time day s + (if string_eqb time day then 1 else 0).
Proof.
  unfold count_scrim_time, store_after, insert_team. simpl.
  rewrite filter_app, length_app. simpl.
  destruct (string_eqb time day); simpl; lia.
Qed.

Lemma count_members_insert (team : Z) (name : string) (n : Z) (s : Store) :
  count_members n (store_after (insert_member team name) s)
  = count_members n s + (if team =? n then 1 else 0).
Proof.
  unfold count_members, store_after, insert_member. simpl.
  rewrite filter_app, length_app. simpl.
  destruct (team =? n); simpl; lia.
Qed.

(** ** The guarded blocks *)

Lemma signup_day_body_accepts (name : string) (leader : Z) (day : string) (s : Store) :
  count_scrim_time day s < 12 ->
  signup_day_body name leader day s
  = (store_after (insert_team name day leader) s, Return (FieldSuccess day)).
Proof.
  intros H. unfold signup_day_body.
  destruct (Z.ltb_spec (count_scrim_time day s) 12); [reflexivity | lia].
Qed.

Lemma signup_day_body_refuses (name : string) (leader : Z) (day : string) (s : Store) :
  12 <= count_scrim_time day s ->
  signup_day_body name leader day s = (s, Return (FieldFailed day)).
Proof.
  intros H. unfold signup_day_body.
  destruct (Z.ltb_spec (count_scrim_time day s) 12); [lia | reflexivity].
Qed.

Lemma add_team_member_body_accepts (team : Z) (name : string) (s : Store) :
  count_members team s < 5 ->
  add_team_member_body team name s = (store_after (insert_member team name) s, Return true).
Proof.
  intros H. unfold add_team_member_body.
  destruct (Z.ltb_spec (count_members team s) 5); [reflexivity | lia].
Qed.

Lemma add_team_member_body_refuses (team : Z) (name : string) (s : Store) :
  5 <= count_members team s ->
  add_team_member_body team name s = (s, Return false).
Proof.
  intros H. unfold add_team_member_body.
  destruct (Z.ltb_spec (count_members team s) 5); [lia | reflexivity].
Qed.

(** ** Handlers that leave the store alone *)

Lemma create_team_logic_store (u : user) (messages : list string) (s : Store) :
  store_after (create_team_logic u messages) s = s.
Proof.
  unfold store_after, create_team_logic.
  destruct (teams_led_by (user_id u) s); [|reflexivity].
  unfold try_except, bind, wait_for_name.
  destruct (find _ messages); reflexivity.
Qed.

Lemma signup_days_raises (name : string) (leader : Z) (day : string) (rest : list string)
      (s : Store) :
  signup_days name leader (day :: rest) s = (s, Raise TypeError).
Proof. reflexivity. Qed.

Lemma signup_select_callback_store (name : string) (leader : Z) (days : list string) (s : Store) :
  store_after (signup_select_callback name leader days) s = s.
Proof. destruct days; reflexivity. Qed.

Lemma available_days_store (signed : list (option string)) (days : list string) (s : Store) :
  store_after (available_days signed days) s = s.
Proof.
  induction days as [|day rest IH]; simpl; [reflexivity|].
  destruct (signed_up day signed); [exact IH | reflexivity].
Qed.

Lemma scrim_signup_logic_store (u : user) (days : list string) (s : Store) :
  store_after (scrim_signup_logic u days) s = s.
Proof.
  unfold store_after, scrim_signup_logic.
  destruct (teams_led_by (user_id u) s) as [|team rest]; [reflexivity|].
  unfold bind.
  pose proof (available_days_store (scrim_times_of (team_name team) s) days s) as H.
  unfold store_after in H.
  destruct (available_days (scrim_times_of (team_name team) s) days s) as [s1 [l|e]];
    simpl in H; subst s1; [destruct l|]; reflexivity.
Qed.

(** ** The store as a transition system *)

Lemma step_teams (s s' : Store) : step s s' -> teams_shrink s s' \/ adds_team_row s s'.
Proof.
  intros H. destruct H.
  - rewrite create_team_logic_store. left. apply teams_shrink_refl.
  - left. apply teams_shrink_refl.
  - rewrite quit_team_logic_store. left. apply teams_shrink_refl.
  - left. unfold store_after, discard_team_logic.
    destruct (teams_led_by (user_id u) s); [apply teams_shrink_refl|].
    intros p. apply filter_filter_length.
  - left. intros p. apply filter_nil_length.
  - rewrite scrim_signup_logic_store. left. apply teams_shrink_refl.
  - rewrite signup_select_callback_store. left. apply teams_shrink_refl.
  - left. apply cancel_dates_shrink.
  - left. apply teams_shrink_refl.
  - left. apply teams_shrink_refl.
  - unfold store_after, transaction_generator.
    destruct (Z.lt_ge_cases (count_scrim_time day s) 12) as [Hlt|Hge].
    + rewrite signup_day_body_accepts by exact Hlt. right.
      eexists. split; [reflexivity|]. right. exists day. split; [reflexivity | exact Hlt].
    + rewrite signup_day_body_refuses by exact Hge. left. apply teams_shrink_refl.
  - left. unfold store_after, transaction_generator.
    destruct (Z.lt_ge_cases (count_members team s) 5) as [Hlt|Hge].
    + rewrite add_team_member_body_accepts by exact Hlt. intros p. simpl. lia.
    + rewrite add_team_member_body_refuses by exact Hge. apply teams_shrink_refl.
  - right. eexists. split; [reflexivity|]. left. reflexivity.
  - left. unfold store_after, transaction_generator, add_scrim_time_body, insert_scrim.
    destruct (existsb _ (scrims s)); intros p; simpl; lia.
Qed.

Lemma step_members (s s' : Store) : step s s' -> members_shrink s s' \/ adds_member_row s s'.
Proof.
  intros H. destruct H.
  - rewrite create_team_logic_store. left. apply members_shrink_refl.
  - left. apply members_shrink_refl.
  - rewrite quit_team_logic_store. left. apply members_shrink_refl.
  - left. unfold store_after, discard_team_logic.
    destruct (teams_led_by (user_id u) s); [apply members_shrink_refl|].
    intros p. apply filter_filter_length.
  - left. intros p. apply filter_nil_length.
  - rewrite scrim_signup_logic_store. left. apply members_shrink_refl.
  - rewrite signup_select_callback_store. left. apply members_shrink_refl.
  - left. intros p. unfold store_after, cancel_select_callback. simpl.
    rewrite cancel_dates_members. lia.
  - left. apply members_shrink_refl.
  - left. apply members_shrink_refl.
  - left. unfold store_after, transaction_generator.
    destruct (Z.lt_ge_cases (count_scrim_time day s) 12) as [Hlt|Hge].
    + rewrite signup_day_body_accepts by exact Hlt. intros p. simpl. lia.
    + rewrite signup_day_body_refuses by exact Hge. apply members_shrink_refl.
  - unfold store_after, transaction_generator.
    destruct (Z.lt_ge_cases (count_members team s) 5) as [Hlt|Hge].
    + rewrite add_team_member_body_accepts by exact Hlt. right.
      eexists. split; [reflexivity | exact Hlt].
    + rewrite add_team_member_body_refuses by exact Hge. left. apply members_shrink_refl.
  - left. intros p. simpl. lia.
  - left. unfold store_after, transaction_generator, add_scrim_time_body, insert_scrim.
    destruct (existsb _ (scrims s)); intros p; simpl; lia.
Qed.

(** ** The slot cap *)

Lemma count_scrim_time_app (day : string) (row : team_row) (s s' : Store) :
  teams s' = teams s ++ [row] ->
  count_scrim_time day s'
  = count_scrim_time day s + (if column_is (scrim_time row) day then 1 else 0).
Proof.
  intros H. unfold count_scrim_time. rewrite H, filter_app, length_app. simpl.
  destruct (column_is (scrim_time row) day); simpl; lia.
Qed.

Lemma count_members_app (team : Z) (row : member_row) (s s' : Store) :
  members s' = members s ++ [row] ->
  count_members team s' = count_members team s + (if team_id row =? team then 1 else 0).
Proof.
  intros H. unfold count_members. rewrite H, filter_app, length_app. simpl.
  destruct (team_id row =? team); simpl; lia.
Qed.

(** No step takes a day from at most 12 rows to more. *)
Lemma step_keeps_slot_cap (s s' : Store) (day : string) :
  step s s' -> day <> EmptyString ->
  count_scrim_time day s <= 12 -> count_scrim_time day s' <= 12.
Proof.
  intros Hstep Hday Hcap.
  destruct (step_teams Hstep) as [Hshrink | [row [Hrows Hrow]]].
  - pose proof (count_scrim_time_shrinks day Hshrink). lia.
  - rewrite (count_scrim_time_app day row s s' Hrows).
    destruct (column_is (scrim_time row) day) eqn:Hmatch; [|lia].
    destruct Hrow as [Hbase | [d [Hd Hlt]]].
    + rewrite Hbase in Hmatch. unfold column_is, string_eqb in Hmatch.
      apply String.eqb_eq in Hmatch. congruence.
    + rewrite Hd in Hmatch. unfold column_is, string_eqb in Hmatch.
      apply String.eqb_eq in Hmatch. subst d. lia.
Qed.

(** Every day other than the empty one has at most 12 rows in every
    reachable store, whether or not the signup block is let in. *)
Lemma reachable_slot_cap (s : Store) (day : string) :
  reachable s -> day <> EmptyString -> count_scrim_time day s <= 12.
Proof.
  intros H Hday. induction H as [|s s' _ IH Hstep].
  - vm_compute. discriminate.
  - exact (step_keeps_slot_cap Hstep Hday IH).
Qed.

(** C1, where the code departs from the specification: with 12 rows for
    [05/06] the signup callback of team [ABC] records no refusal: it raises
    [TypeError] on entering the transaction, where the block itself would
    have recorded the failure field; with no row for [05/06] it inserts
    nothing and records no success for the same reason.  The callback raises
    for every team, leader, store and non-empty selection, and the prompt
    that would offer the days raises as well. *)
Theorem signup_callback_never_answers :
  count_scrim_time "05/06" store_full = 12
  /\ signup_select_callback "ABC" 7 ["05/06"%string] store_full
     = (store_full, Raise TypeError)
  /\ transaction_generator (signup_day_body "ABC" 7 "05/06") store_full
     = (store_full, Return (FieldFailed "05/06"))
  /\ count_scrim_time "05/06" store_abc = 0
  /\ signup_select_callback "ABC" 7 ["05/06"%string] store_abc
     = (store_abc, Raise TypeError)
  /\ scrim_signup_logic ann ["05/06"%string; "06/06"%string] store_abc
     = (store_abc, Raise TypeError)
  /\ (forall (name : string) (leader : Z) (day : string) (rest : list string) (s : Store),
        signup_select_callback name leader (day :: rest) s = (s, Raise TypeError)).
Proof.
  split; [reflexivity|]. split; [reflexivity|]. split; [reflexivity|].
  split; [reflexivity|]. split; [reflexivity|]. split; [reflexivity|].
  intros. reflexivity.
Qed.

(** ** The team cap *)

Lemma step_keeps_team_cap (s s' : Store) (team : Z) :
  step s s' -> count_members team s <= 5 -> count_members team s' <= 5.
Proof.
  intros Hstep Hcap.
  destruct (step_members Hstep) as [Hshrink | [row [Hrows Hlt]]].
  - pose proof (count_members_shrinks team Hshrink). lia.
  - rewrite (count_members_app team row s s' Hrows).
    destruct (Z.eqb_spec (team_id row) team) as [<-|_]; lia.
Qed.

Lemma reachable_team_cap (s : Store) (team : Z) :
  reachable s -> count_members team s <= 5.
Proof.
  intros H. induction H as [|s s' _ IH Hstep].
  - vm_compute. discriminate.
  - exact (step_keeps_team_cap team Hstep IH).
Qed.

(** C3, where the code departs from the specification: team [ABC] has four
    members; a user who is neither leader nor member is offered the team,
    picks it and is answered with the success message, not with a full
    team, and no row is stored.  The join callback answers so for every
    user, team and store: it counts nothing.  The helper that holds the
    count, [add_team_member], raises [TypeError] on entering its
    transaction. *)
Theorem full_team_is_not_refused :
  count_members 1 store_four = 4
  /\ outcome (join_team_logic eve) store_four = Return (JoinPrompt ["ABC"%string])
  /\ (exists u', join_select_callback eve "ABC" store_four
                 = (store_four, Return (u', Joined "ABC")))
  /\ add_team_member 1 "eve" store_four = (store_four, Raise TypeError)
  /\ (forall (u : user) (team : string) (s : Store),
        exists u', join_select_callback u team s = (s, Return (u', Joined team))).
Proof.
  split; [reflexivity|]. split; [reflexivity|]. split; [eexists; reflexivity|].
  split; [reflexivity|]. intros u team s. eexists. reflexivity.
Qed.

(** X26: once its transaction is entered, the block of [add_team_member]
    counts the member rows of the team and inserts exactly one, answering
    [True], while there are fewer than 5, and inserts nothing, answering
    [False], once there are 5; so in every store reachable from the empty
    tables, by the handlers and by the blocks under the transactions, a team
    has at most 5 member rows. *)
Theorem team_membership_cap_is_five (s : Store) (team : Z) (name : string) :
  reachable s ->
  count_members team s <= 5
  /\ (count_members team s < 5 ->
      outcome (add_team_member_body team name) s = Return true
      /\ members (store_after (add_team_member_body team name) s)
         = members s ++ [mk_member (next_id member_id (members s) (seq_members s)) team name]
      /\ count_members team (store_after (add_team_member_body team name) s)
         = count_members team s + 1)
  /\ (count_members team s = 5 -> add_team_member_body team name s = (s, Return false)).
Proof.
  intros H. split; [exact (reachable_team_cap team H)|]. split.
  - intros Hlt. unfold outcome, store_after.
    rewrite add_team_member_body_accepts by exact Hlt.
    split; [reflexivity|]. split; [reflexivity|].
    simpl. fold (store_after (insert_member team name) s).
    rewrite count_members_insert, Z.eqb_refl. reflexivity.
  - intros Heq. apply add_team_member_body_refuses. lia.
Qed.

(** The cap of five at the store reached by admitting [bob] to team 1. *)
Lemma team_membership_cap_is_five_witness :
  let s := store_after (transaction_generator (add_team_member_body 1 "bob")) empty_store in
  count_members 1 s <= 5
  /\ (count_members 1 s < 5 ->
      outcome (add_team_member_body 1 "cat") s = Return true
      /\ members (store_after (add_team_member_body 1 "cat") s)
         = members s ++ [mk_member (next_id member_id (members s) (seq_members s)) 1 "cat"]
      /\ count_members 1 (store_after (add_team_member_body 1 "cat") s)
         = count_members 1 s + 1)
  /\ (count_members 1 s = 5 -> add_team_member_body 1 "cat" s = (s, Return false)).
Proof.
  apply (@team_membership_cap_is_five
           (store_after (transaction_generator (add_team_member_body 1 "bob")) empty_store)
           1 "cat").
  apply reachable_step with (s := empty_store).
  - apply reachable_init.
  - apply block_add_team_member.
Defined.

(** ** Signing up and cancelling *)

(** A team that has no row for [day] loses no row when [day] is cancelled
    and, had it one more row for [day], would lose exactly that one. *)
Lemma cancel_removes_new_row (name : string) (leader n : Z) (day : string) (rows : list team_row) :
  signed_up day (map scrim_time (filter (fun r => string_eqb (team_name r) name) rows)) = false ->
  filter (fun r => negb (string_eqb (team_name r) name && column_is (scrim_time r) day))
         (rows ++ [mk_team n name (Some day) leader])
  = rows.
Proof.
  intros H. rewrite filter_app. simpl.
  unfold string_eqb at 2 3. rewrite !String.eqb_refl. simpl. rewrite app_nil_r.
  induction rows as [|r rows IH]; simpl; [reflexivity|].
  simpl in H. destruct (string_eqb (team_name r) name) eqn:Hname; simpl in *.
  - unfold signed_up in H. simpl in H. apply Bool.orb_false_iff in H as [Hr Hrest].
    rewrite Hr. simpl. f_equal. apply IH. exact Hrest.
  - f_equal. apply IH. exact H.
Qed.

Lemma cancel_one_day (name day : string) (s : Store) :
  store_after (cancel_select_callback name [day]) s = delete_team_time name day s.
Proof. reflexivity. Qed.


(** X24: once the signup block is entered for a team without a row for the
    day and with fewer than 12 rows for that day, it records the success
    field and adds one row, and the cancel callback for that day then
    deletes exactly this row: the teams table and the count of the day are
    again those before the signup. *)
Theorem entered_signup_then_cancel_restores_teams
        (name : string) (leader : Z) (day : string) (s : Store) :
  signed_up day (scrim_times_of name s) = false ->
  count_scrim_time day s < 12 ->
  let signup := transaction_generator (signup_day_body name leader day) in
  outcome signup s = Return (FieldSuccess day)
  /\ count_scrim_time day (store_after signup s) = count_scrim_time day s + 1
  /\ teams (store_after (cancel_select_callback name [day]) (store_after signup s))
     = teams s
  /\ count_scrim_time day
       (store_after (cancel_select_callback name [day]) (store_after signup s))
     = count_scrim_time day s.
Proof.
  intros Hnew Hlt. cbv zeta. unfold outcome, store_after, transaction_generator.
  rewrite signup_day_body_accepts by exact Hlt. cbn [fst snd].
  assert (Hback : teams (fst (cancel_select_callback name [day]
                                (store_after (insert_team name day leader) s)))
                  = teams s).
  { unfold store_after, insert_team, cancel_select_callback, delete_team_time. simpl.
    apply (cancel_removes_new_row name leader _ day (teams s) Hnew). }
  split; [reflexivity|]. split.
  - rewrite count_scrim_time_insert. unfold string_eqb. rewrite String.eqb_refl. reflexivity.
  - split; [exact Hback|]. unfold count_scrim_time. rewrite Hback. reflexivity.
Qed.

(** Team [ABC] and the day [05/06] on the store that holds only the team. *)
Lemma entered_signup_then_cancel_restores_teams_witness :
  let signup := transaction_generator (signup_day_body "ABC" 7 "05/06") in
  outcome signup store_abc = Return (FieldSuccess "05/06")
  /\ count_scrim_time "05/06" (store_after signup store_abc)
     = count_scrim_time "05/06" store_abc + 1
  /\ teams (store_after (cancel_select_callback "ABC" ["05/06"%string])
                        (store_after signup store_abc))
     = teams store_abc
  /\ count_scrim_time "05/06"
       (store_after (cancel_select_callback "ABC" ["05/06"%string])
                    (store_after signup store_abc))
     = count_scrim_time "05/06" store_abc.
Proof.
  apply (@entered_signup_then_cancel_restores_teams "ABC" 7 "05/06" store_abc).
  - reflexivity.
  - vm_compute. reflexivity.
Defined.

(** ** The participants view *)

Lemma startswith_app (p x : string) : startswith p (p ++ x) = true.
Proof.
  unfold startswith. induction p as [|a p IH]; simpl.
  - destruct x; reflexivity.
  - destruct (ascii_dec a a); [exact IH | congruence].
Qed.

(** The previous-day button is on the view exactly when the offset is
    above 0, the next-day button exactly when it is below 6. *)
Lemma participants_view_buttons (o : Z) :
  (existsb (fun b => startswith "participants_prev_" (custom_id b)) (participants_view o)
   = (o >? 0))
  /\ (existsb (fun b => startswith "participants_next_" (custom_id b)) (participants_view o)
      = (o <? 6)).
Proof.
  unfold participants_view.
  destruct (o >? 0), (o <? 6); split;
    cbn [existsb app custom_id]; rewrite ?startswith_app; reflexivity.
Qed.

(** From an offset within the week a button leads to the day before or the
    day after, and never out of the week. *)
Lemma click_stays_in_week (o n : Z) (b : button) :
  0 <= o <= 6 ->
  In b (participants_view o) ->
  on_interaction_day_offset (custom_id b) = Some (Return n) ->
  0 <= n <= 6 /\ (n = o - 1 \/ n = o + 1).
Proof.
  intros Ho Hb Hn.
  assert (Hcases : o = 0 \/ o = 1 \/ o = 2 \/ o = 3 \/ o = 4 \/ o = 5 \/ o = 6) by lia.
  repeat (destruct Hcases as [-> | Hcases]); try subst o;
    cbn in Hb;
    repeat (destruct Hb as [<- | Hb]); try contradiction;
    vm_compute in Hn; try discriminate;
    injection Hn as <-; lia.
Qed.

(** C9: every day offset the participants view is shown at, from the menu
    and then through its own previous-day and next-day buttons, lies
    between 0 and 6; the view carries a previous-day button exactly when
    its offset is above 0 and a next-day button exactly when it is below
    6. *)
Theorem participants_offset_in_week (n : Z) :
  shown n ->
  0 <= n <= 6
  /\ existsb (fun b => startswith "participants_prev_" (custom_id b)) (participants_view n)
     = (n >? 0)
  /\ existsb (fun b => startswith "participants_next_" (custom_id b)) (participants_view n)
     = (n <? 6).
Proof.
  intros H. split; [|exact (participants_view_buttons n)].
  induction H as [n H | o n b _ IH Hb Hn].
  - vm_compute in H. injection H as <-. lia.
  - exact (proj1 (click_stays_in_week b IH Hb Hn)).
Qed.

(** The view reached by next, next, previous from the menu is that of
    offset 1, with both buttons. *)
Lemma participants_offset_in_week_witness :
  0 <= 1 <= 6
  /\ existsb (fun b => startswith "participants_prev_" (custom_id b)) (participants_view 1)
     = (1 >? 0)
  /\ existsb (fun b => startswith "participants_next_" (custom_id b)) (participants_view 1)
     = (1 <? 6).
Proof.
  apply (@participants_offset_in_week 1).
  apply shown_click with (o := 2) (b := mk_button "Previous Day" "participants_prev_1");
    [| vm_compute; tauto | reflexivity].
  apply shown_click with (o := 1) (b := mk_button "Next Day" "participants_next_2");
    [| vm_compute; tauto | reflexivity].
  apply shown_click with (o := 0) (b := mk_button "Next Day" "participants_next_1");
    [| vm_compute; tauto | reflexivity].
  apply shown_menu. reflexivity.
Defined.

(** ** Rows without a date *)

Lemma truthy_times_not_empty (name : string) (s : Store) (t : string) :
  In t (truthy_times name s) -> t <> EmptyString.
Proof.
  unfold truthy_times. intros H. apply in_flat_map in H as [v [_ Hv]].
  destruct v as [c|]; [|contradiction].
  destruct (truthy (Some c)) eqn:Htruthy; [|contradiction].
  destruct Hv as [<- | []]. intros ->. discriminate Htruthy.
Qed.

Lemma cancel_options_not_empty (name : string) (s : Store) (t : string) :
  In t (cancel_options name s) -> t <> EmptyString.
Proof.
  unfold cancel_options. intros H. apply in_map_iff in H as [c [<- Hc]].
  apply truthy_times_not_empty in Hc.
  destruct c as [|a rest]; [congruence|].
  simpl. destruct (starts_character a); discriminate.
Qed.

(** Cancelling dates that are not empty deletes no row whose date is. *)
Lemma cancel_keeps_falsy_rows (name : string) (dates : list string) (s : Store) (r : team_row) :
  (forall d, In d dates -> d <> EmptyString) ->
  truthy (scrim_time r) = false ->
  In r (teams s) ->
  In r (teams (store_after (cancel_select_callback name dates) s)).
Proof.
  unfold store_after, cancel_select_callback. simpl.
  revert s. induction dates as [|d dates IH]; intros s Hdates Hfalsy Hin; simpl; [exact Hin|].
  apply IH; [intros d' Hd'; apply Hdates; right; exact Hd' | exact Hfalsy |].
  unfold delete_team_time. simpl. apply filter_In. split; [exact Hin|].
  assert (Hd : d <> EmptyString) by (apply Hdates; left; reflexivity).
  destruct (scrim_time r) as [c|]; simpl.
  - simpl in Hfalsy. apply Bool.negb_false_iff in Hfalsy.
    apply String.eqb_eq in Hfalsy. subst c.
    destruct d; [congruence|]. rewrite Bool.andb_false_r. reflexivity.
  - rewrite Bool.andb_false_r. reflexivity.
Qed.


(** X25: a row whose [scrim_time] is empty or [NULL] is never shown as a
    date and cannot be cancelled: the schedule that [check_schedule_logic]
    answers and the menu of [cancel_sign_up_logic] hold no empty date, and a
    cancel callback whose dates come from the menu keeps every such row. *)
Theorem falsy_scrim_time_is_hidden (u : user) (name : string) (s : Store) :
  (forall t, outcome (check_schedule_logic u) s = Return (Schedule name t) ->
             ~ In EmptyString t)
  /\ ~ In EmptyString (truthy_times name s)
  /\ ~ In EmptyString (cancel_options name s)
  /\ (forall options, outcome (cancel_sign_up_logic u) s = Return (CancelPrompt options) ->
                      ~ In EmptyString options)
  /\ (forall dates r,
        incl dates (cancel_options name s) ->
        In r (teams s) -> truthy (scrim_time r) = false ->
        In r (teams (store_after (cancel_select_callback name dates) s))).
Proof.
  split.
  { intros t Ht Hin. unfold outcome, check_schedule_logic in Ht.
    destruct (match teams_led_by (user_id u) s with
              | [] => team_of_member (display_name u) s
              | team :: _ => Some team
              end) as [team|]; simpl in Ht; [|discriminate].
    injection Ht as _ <-.
    exact (@truthy_times_not_empty _ _ _ Hin eq_refl). }
  split.
  { intros Hin. exact (@truthy_times_not_empty _ _ _ Hin eq_refl). }
  split.
  { intros Hin. exact (@cancel_options_not_empty _ _ _ Hin eq_refl). }
  split.
  { intros options Hopt Hin. unfold outcome, cancel_sign_up_logic in Hopt.
    destruct (teams_led_by (user_id u) s) as [|team rest]; [discriminate|].
    destruct (cancel_options (team_name team) s) as [|o os] eqn:Hmenu; [discriminate|].
    simpl in Hopt. injection Hopt as <-. rewrite <- Hmenu in Hin.
    exact (@cancel_options_not_empty _ _ _ Hin eq_refl). }
  intros dates r Hincl Hin Hfalsy.
  apply cancel_keeps_falsy_rows; [|exact Hfalsy|exact Hin].
  intros d Hd. apply (@cancel_options_not_empty name s). apply Hincl. exact Hd.
Qed.

(** ** The stores of the examples *)

(** Each store used in an example above is what the statements of the
    source write, block by block, from the empty tables. *)
Lemma store_abc_reachable : reachable store_abc.
Proof.
  exact (reachable_step reachable_init (block_add_team "ABC" 7 empty_store)).
Qed.

Lemma store_signed_reachable : reachable store_signed.
Proof.
  pose proof (reachable_step store_abc_reachable (block_signup_day "ABC" 7 "05/06" _)) as H1.
  exact (reachable_step H1 (block_add_team_member 1 "bob" _)).
Qed.

Lemma store_four_reachable : reachable store_four.
Proof.
  pose proof (reachable_step store_abc_reachable (block_add_team_member 1 "bob" _)) as H1.
  pose proof (reachable_step H1 (block_add_team_member 1 "cat" _)) as H2.
  pose proof (reachable_step H2 (block_add_team_member 1 "dan" _)) as H3.
  exact (reachable_step H3 (block_add_team_member 1 "eli" _)).
Qed.

Lemma signups_reachable (day : string) (numbers : list Z) (s : Store) :
  reachable s ->
  reachable
    (fold_left
       (fun acc n =>
          store_after
            (transaction_generator (signup_day_body ("T" ++ str_of_int n) (100 + n) day)) acc)
       numbers s).
Proof.
  revert s. induction numbers as [|n numbers IH]; intros s H; simpl; [exact H|].
  apply IH. exact (reachable_step H (block_signup_day _ _ _ _)).
Qed.

Lemma store_full_reachable : reachable store_full.
Proof.
  pose proof (signups_reachable "05/06" [1; 2; 3; 4; 5; 6; 7; 8; 9; 10; 11; 12]
                                reachable_init) as H.
  pose proof (reachable_step H (block_add_team "ABC" 7 _)) as H1.
  vm_compute in H1. exact H1.
Qed.

(** * Properties of the rest of the bot *)

Unset Implicit Arguments.

(** ** What the handlers write *)

Lemma for_each_raises {A B} (f : A -> M B) (x : A) (rest : list A) (s : Store) (e : exn) :
  f x s = (s, Raise e) -> for_each f (x :: rest) s = (s, Raise e).
Proof. intros H. simpl. unfold bind. rewrite H. reflexivity. Qed.

Lemma check_teams_entry_raises (guild : Z -> option string) (row : team_row) (s : Store) :
  check_teams_entry guild row s = (s, Raise TypeError).
Proof. reflexivity. Qed.

Lemma list_teams_logic_raises (time : string) (s : Store) :
  list_teams_logic time s = (s, Raise TypeError).
Proof. reflexivity. Qed.

Lemma check_teams_logic_outcome (guild : Z -> option string) (s : Store) :
  check_teams_logic guild s
  = (s, match teams s with [] => Return NoTeams | _ :: _ => Raise TypeError end).
Proof.
  unfold check_teams_logic. destruct (teams s) as [|row rows]; [reflexivity|].
  unfold bind.
  rewrite (for_each_raises _ row rows s TypeError (check_teams_entry_raises guild row s)).
  reflexivity.
Qed.

Lemma join_team_logic_store (u : user) (s : Store) : store_after (join_team_logic u) s = s.
Proof.
  unfold store_after, join_team_logic.
  destruct (teams_led_by (user_id u) s); [|reflexivity].
  destruct (filter _ (members s)); [|reflexivity].
  destruct (map team_name (in_name_order (teams s))); reflexivity.
Qed.

Lemma cancel_sign_up_logic_store (u : user) (s : Store) :
  store_after (cancel_sign_up_logic u) s = s.
Proof.
  unfold store_after, cancel_sign_up_logic.
  destruct (teams_led_by (user_id u) s) as [|team rest]; [reflexivity|].
  destruct (cancel_options (team_name team) s); reflexivity.
Qed.

Lemma check_schedule_logic_store (u : user) (s : Store) :
  store_after (check_schedule_logic u) s = s.
Proof.
  unfold store_after, check_schedule_logic.
  destruct (match teams_led_by (user_id u) s with
            | [] => team_of_member (display_name u) s
            | team :: _ => Some team
            end); reflexivity.
Qed.

Lemma filter_all {X} (p : X -> bool) (l : list X) :
  (forall x, In x l -> p x = true) -> filter p l = l.
Proof.
  induction l as [|x l IH]; intros H; simpl; [reflexivity|].
  rewrite (H x (or_introl eq_refl)). f_equal. apply IH. intros y Hy. apply H. right. exact Hy.
Qed.

Lemma filter_twice {X} (p q : X -> bool) (l : list X) :
  filter p (filter q l) = filter (fun x => q x && p x) l.
Proof.
  induction l as [|x l IH]; simpl; [reflexivity|].
  destruct (q x); simpl; [destruct (p x); rewrite IH; reflexivity | exact IH].
Qed.

(** The cancel callback is one filter of the teams table. *)
Lemma cancel_as_filter (name : string) (dates : list string) (s : Store) :
  store_after (cancel_select_callback name dates) s
  = with_teams (filter (fun r => negb (cancelled_row name dates r)) (teams s)) (seq_teams s) s.
Proof.
  unfold store_after, cancel_select_callback. simpl.
  revert s. induction dates as [|d dates IH]; intros s; simpl.
  - rewrite filter_all.
    + destruct s; reflexivity.
    + intros r _. unfold cancelled_row. simpl. rewrite Bool.andb_false_r. reflexivity.
  - rewrite IH. unfold delete_team_time, with_teams. simpl. f_equal.
    rewrite filter_twice. apply filter_ext. intros r. unfold cancelled_row. simpl.
    destruct (string_eqb (team_name r) name), (column_is (scrim_time r) d),
      (existsb (fun d0 => column_is (scrim_time r) d0) dates); reflexivity.
Qed.

Lemma handlers_add_no_row_refl (s : Store) : no_row_added s s.
Proof.
  unfold no_row_added.
  repeat split; try reflexivity; intros p; lia.
Qed.

Lemma handler_step_adds_no_row (s s' : Store) : handler_step s s' -> no_row_added s s'.
Proof.
  intros H. destruct H.
  all: try (rewrite ?create_team_logic_store, ?join_team_logic_store, ?quit_team_logic_store,
              ?scrim_signup_logic_store, ?signup_select_callback_store,
              ?cancel_sign_up_logic_store, ?check_schedule_logic_store;
            apply handlers_add_no_row_refl).
  - unfold store_after, discard_team_logic.
    destruct (teams_led_by (user_id u) s); [apply handlers_add_no_row_refl|].
    unfold no_row_added. simpl.
    repeat split; try reflexivity; intros p; try lia; apply filter_filter_length.
  - unfold no_row_added, store_after, reset_database_logic. simpl.
    repeat split; try reflexivity; intros p; simpl; lia.
  - rewrite cancel_as_filter. unfold no_row_added, with_teams. simpl.
    repeat split; try reflexivity; intros p; cbn; try lia; apply filter_filter_length.
  - unfold store_after. rewrite check_teams_logic_outcome. apply handlers_add_no_row_refl.
Qed.

(** X1: no handler and no helper of the bot, whatever its arguments and
    whatever the store, leaves a table with more rows than it found or
    hands out a rowid. *)
Theorem handlers_add_no_row (s s' : Store) : handler_step s s' -> no_row_added s s'.
Proof. exact (handler_step_adds_no_row s s'). Qed.

(** Discarding team [ABC] with its signup adds no row. *)
Lemma handlers_add_no_row_witness :
  no_row_added store_signed (store_after (discard_team_logic ann) store_signed).
Proof.
  apply (handlers_add_no_row store_signed (store_after (discard_team_logic ann) store_signed)).
  apply by_discard.
Defined.

Lemma no_row_added_to_empty (s : Store) : no_row_added empty_store s -> s = empty_store.
Proof.
  intros [Hs [Ht [Hm [Hqs [Hqt Hqm]]]]].
  specialize (Hs (fun _ => true)). specialize (Ht (fun _ => true)).
  specialize (Hm (fun _ => true)).
  rewrite filter_all in Hs by reflexivity.
  rewrite filter_all in Ht by reflexivity.
  rewrite filter_all in Hm by reflexivity.
  destruct s as [sc te me qs qt qm]. simpl in *.
  destruct sc; [|simpl in Hs; lia]. destruct te; [|simpl in Ht; lia].
  destruct me; [|simpl in Hm; lia]. subst. reflexivity.
Qed.

(** X2: started on empty tables, the bot as written never stores anything:
    after any sequence of handler calls all three tables are still empty
    and no rowid has been used. *)
Theorem bot_never_stores_a_row (s : Store) : handler_reachable s -> s = empty_store.
Proof.
  intros H. induction H as [|s s' _ IH Hstep]; [reflexivity|].
  subst s. apply no_row_added_to_empty. apply handler_step_adds_no_row. exact Hstep.
Qed.

(** A user tries to create a team, a leader tries to sign it up and to
    cancel: the tables are still empty. *)
Lemma bot_never_stores_a_row_witness :
  store_after (cancel_select_callback "ABC" ["05/06"%string])
    (store_after (signup_select_callback "ABC" 7 ["05/06"%string])
       (store_after (create_team_logic ann ["abc"%string]) empty_store))
  = empty_store.
Proof.
  apply (bot_never_stores_a_row
           (store_after (cancel_select_callback "ABC" ["05/06"%string])
              (store_after (signup_select_callback "ABC" 7 ["05/06"%string])
                 (store_after (create_team_logic ann ["abc"%string]) empty_store)))).
  apply handler_reachable_step
    with (s := store_after (signup_select_callback "ABC" 7 ["05/06"%string])
                 (store_after (create_team_logic ann ["abc"%string]) empty_store));
    [|apply by_cancel].
  apply handler_reachable_step
    with (s := store_after (create_team_logic ann ["abc"%string]) empty_store);
    [|apply by_signup].
  apply handler_reachable_step with (s := empty_store); [|apply by_create_team].
  apply handler_reachable_init.
Defined.

(** ** What the handlers answer *)

Lemma existsb_find {X} (p : X -> bool) (l : list X) :
  existsb p l = match find p l with Some _ => true | None => false end.
Proof.
  induction l as [|x l IH]; simpl; [reflexivity|].
  destruct (p x); [reflexivity | exact IH].
Qed.

Lemma filter_none {X} (p : X -> bool) (l : list X) :
  (forall x, p x = false) -> filter p l = [].
Proof.
  intros H. induction l as [|x l IH]; simpl; [reflexivity|]. rewrite H. exact IH.
Qed.

(** X3: [create_team_logic] never creates a team.  A leader is told so;
    anyone else is told that the name is taken as soon as he sends a name
    of at most 3 characters (not bytes), whatever teams exist, and that the
    creation failed if he sends none in time.  The store is never
    changed. *)
Theorem create_team_never_creates (u : user) (messages : list string) (s : Store) :
  create_team_logic u messages s
  = (s, Return (match teams_led_by (user_id u) s with
                | _ :: _ => AlreadyLeader
                | [] => if existsb (fun m => (py_len m <=? 3)%nat) messages
                        then NameTaken
                        else CreateFailed
                end))
  /\ (forall name, outcome (create_team_logic u messages) s <> Return (TeamCreated name)).
Proof.
  assert (H : create_team_logic u messages s
              = (s, Return (match teams_led_by (user_id u) s with
                            | _ :: _ => AlreadyLeader
                            | [] => if existsb (fun m => (py_len m <=? 3)%nat) messages
                                    then NameTaken
                                    else CreateFailed
                            end))).
  { unfold create_team_logic. destruct (teams_led_by (user_id u) s); [|reflexivity].
    rewrite existsb_find. unfold try_except, bind, wait_for_name.
    destruct (find _ messages); reflexivity. }
  split; [exact H|]. intros name. unfold outcome. rewrite H. simpl.
  destruct (teams_led_by (user_id u) s); [|discriminate].
  destruct (existsb _ messages); discriminate.
Qed.

Lemma available_days_outcome (signed : list (option string)) (days : list string) (s : Store) :
  available_days signed days s
  = (s, if forallb (fun d => signed_up d signed) days then Return [] else Raise TypeError).
Proof.
  induction days as [|day rest IH]; simpl; [reflexivity|].
  destruct (signed_up day signed); simpl; [exact IH | reflexivity].
Qed.

(** X4: [scrim_signup_logic] never shows its menu of days.  Who leads no
    team is told so; a leader whose team already has a row for every day of
    the week is told that no slot is available; for every other leader the
    handler raises [TypeError] on the first day it would have to check.
    The store is never changed. *)
Theorem signup_prompt_never_shown (u : user) (days : list string) (s : Store) :
  scrim_signup_logic u days s
  = (s, match teams_led_by (user_id u) s with
        | [] => Return NotALeader
        | team :: _ =>
            if forallb (fun d => signed_up d (scrim_times_of (team_name team) s)) days
            then Return NoAvailableSlots
            else Raise TypeError
        end)
  /\ (forall options, outcome (scrim_signup_logic u days) s <> Return (SignupPrompt options)).
Proof.
  assert (H : scrim_signup_logic u days s
              = (s, match teams_led_by (user_id u) s with
                    | [] => Return NotALeader
                    | team :: _ =>
                        if forallb (fun d => signed_up d (scrim_times_of (team_name team) s)) days
                        then Return NoAvailableSlots
                        else Raise TypeError
                    end)).
  { unfold scrim_signup_logic. destruct (teams_led_by (user_id u) s) as [|team rest];
      [reflexivity|].
    unfold bind. rewrite available_days_outcome.
    destruct (forallb _ days); reflexivity. }
  split; [exact H|]. intros options. unfold outcome. rewrite H. simpl.
  destruct (teams_led_by (user_id u) s) as [|team rest]; [discriminate|].
  destruct (forallb _ days); discriminate.
Qed.

(** X5: neither team list ever lists a team.  [list_teams_logic] raises
    [TypeError] for every time and store; [check_teams_logic] answers that
    there are no teams when the teams table is empty and raises [TypeError]
    as soon as it holds a row. *)
Theorem team_lists_list_no_team (guild : Z -> option string) (time : string) (s : Store) :
  list_teams_logic time s = (s, Raise TypeError)
  /\ check_teams_logic guild s
     = (s, match teams s with [] => Return NoTeams | _ :: _ => Raise TypeError end)
  /\ (forall entries,
        outcome (list_teams_logic time) s <> Return (TeamList entries)
        /\ outcome (check_teams_logic guild) s <> Return (TeamList entries)).
Proof.
  split; [reflexivity|]. split; [apply check_teams_logic_outcome|].
  intros entries. split; [discriminate|].
  unfold outcome. rewrite check_teams_logic_outcome. simpl.
  destruct (teams s); discriminate.
Qed.

(** X6: the guards on leadership.  Who leads no team is refused by the
    signup, cancel and discard handlers; who leads one is refused by the
    create, join and quit handlers; in all six cases the store and the user
    stay as they were. *)
Theorem leadership_guards (u : user) (days messages : list string) (s : Store) :
  match teams_led_by (user_id u) s with
  | [] =>
      scrim_signup_logic u days s = (s, Return NotALeader)
      /\ cancel_sign_up_logic u s = (s, Return NotALeader)
      /\ discard_team_logic u s = (s, Return (u, NotALeader))
  | _ :: _ =>
      create_team_logic u messages s = (s, Return AlreadyLeader)
      /\ join_team_logic u s = (s, Return LeaderCannotJoin)
      /\ quit_team_logic u s = (s, Return (u, LeaderCannotQuit))
  end.
Proof.
  unfold scrim_signup_logic, cancel_sign_up_logic, discard_team_logic, create_team_logic,
    join_team_logic, quit_team_logic.
  destruct (teams_led_by (user_id u) s); repeat split; reflexivity.
Qed.

(** X7: after [reset_database_logic] the three tables are empty whatever
    they held, a second reset changes nothing, and every handler answers as
    on a bot without teams: nothing to join, nothing to quit, no leader, no
    schedule, no participant, no team to list. *)
Theorem reset_empties_everything
        (s : Store) (u : user) (days : list string) (date_of : Z -> string) (o : Z)
        (guild : Z -> option string) :
  let s' := store_after reset_database_logic s in
  outcome reset_database_logic s = Return DatabaseReset
  /\ scrims s' = [] /\ teams s' = [] /\ members s' = []
  /\ store_after reset_database_logic s' = s'
  /\ outcome (join_team_logic u) s' = Return NoTeamsAvailable
  /\ outcome (quit_team_logic u) s' = Return (u, NotPartOfAnyTeam)
  /\ outcome (discard_team_logic u) s' = Return (u, NotALeader)
  /\ outcome (cancel_sign_up_logic u) s' = Return NotALeader
  /\ outcome (scrim_signup_logic u days) s' = Return NotALeader
  /\ outcome (check_schedule_logic u) s' = Return NotPartOfAnyTeam
  /\ outcome (participants_logic date_of o) s'
     = Return (Participants (date_of o) [] (participants_view o))
  /\ outcome (check_teams_logic guild) s' = Return NoTeams.
Proof.
  cbv zeta. unfold store_after, outcome, reset_database_logic. simpl.
  repeat split.
  unfold quit_team_logic. simpl. rewrite filter_none by reflexivity. reflexivity.
Qed.

(** ** Discarding, in general *)

Lemma NoDup_map_filter {X Y} (f : X -> Y) (p : X -> bool) (l : list X) :
  NoDup (map f l) -> NoDup (map f (filter p l)).
Proof.
  induction l as [|x l IH]; simpl; intros H; [constructor|].
  inversion H as [|y ys Hnotin Hrest]; subst.
  destruct (p x); simpl; [|exact (IH Hrest)].
  constructor; [|exact (IH Hrest)].
  intros Hin. apply Hnotin. apply in_map_iff in Hin as [z [Hz Hzin]].
  apply in_map_iff. exists z. split; [exact Hz|]. apply filter_In in Hzin. tauto.
Qed.

Lemma same_id_same_row (l : list team_row) (r r' : team_row) :
  NoDup (map id l) -> In r l -> In r' l -> id r = id r' -> r = r'.
Proof.
  induction l as [|x l IH]; simpl; intros Hnd Hr Hr' Hid; [contradiction|].
  inversion Hnd as [|y ys Hnotin Hrest]; subst.
  destruct Hr as [-> | Hr], Hr' as [-> | Hr'].
  - reflexivity.
  - exfalso. apply Hnotin. rewrite Hid. apply in_map. exact Hr'.
  - exfalso. apply Hnotin. rewrite <- Hid. apply in_map. exact Hr.
  - exact (IH Hrest Hr Hr' Hid).
Qed.

Lemma length_without_id (l : list team_row) (team : team_row) :
  NoDup (map id l) -> In team l ->
  (List.length (filter (fun r => negb (id r =? id team)%Z) l) + 1 = List.length l)%nat.
Proof.
  induction l as [|x l IH]; simpl; intros Hnd Hin; [contradiction|].
  inversion Hnd as [|y ys Hnotin Hrest]; subst.
  destruct Hin as [-> | Hin].
  - rewrite Z.eqb_refl. simpl. rewrite filter_all; [lia|].
    intros r Hr. apply Bool.negb_true_iff. apply Z.eqb_neq. intros Heq.
    apply Hnotin. rewrite <- Heq. apply in_map. exact Hr.
  - destruct (Z.eqb_spec (id x) (id team)) as [Heq | Hneq]; simpl.
    + exfalso. apply Hnotin. rewrite Heq. apply in_map. exact Hin.
    + rewrite <- (IH Hrest Hin). lia.
Qed.

Lemma discard_team_logic_user_id (u : user) (s : Store) :
  match outcome (discard_team_logic u) s with
  | Return (u', _) => user_id u' = user_id u
  | Raise _ => False
  end.
Proof.
  unfold outcome, discard_team_logic.
  destruct (teams_led_by (user_id u) s); reflexivity.
Qed.

Lemma discard_led_rows (u : user) (s : Store) (team : team_row) (rest : list team_row) :
  NoDup (map id (teams s)) ->
  teams_led_by (user_id u) s = team :: rest ->
  teams_led_by (user_id u) (store_after (discard_team_logic u) s) = rest.
Proof.
  intros Hnd Hled.
  unfold store_after, discard_team_logic. rewrite Hled. unfold teams_led_by. simpl.
  rewrite filter_twice.
  assert (Hsub : NoDup (map id (team :: rest))).
  { rewrite <- Hled. apply NoDup_map_filter. exact Hnd. }
  inversion Hsub as [|y ys Hnotin _]; subst.
  transitivity (filter (fun r => negb (id r =? id team)) (teams_led_by (user_id u) s)).
  { unfold teams_led_by. rewrite filter_twice. apply filter_ext. intros r.
    apply Bool.andb_comm. }
  rewrite Hled. simpl. rewrite Z.eqb_refl. simpl. apply filter_all.
  intros r Hr. apply Bool.negb_true_iff. apply Z.eqb_neq. intros Heq.
  apply Hnotin. rewrite <- Heq. apply in_map. exact Hr.
Qed.

(** X8: with rowids unique, [discard_team_logic] of a leader deletes
    exactly one row of the teams table, the first one he leads: his other
    rows stay, so he is still a leader unless that row was his only one;
    every other team row stays, and of the members exactly those go that
    point at the deleted row. *)
Theorem discard_removes_one_row
        (u : user) (s : Store) (team : team_row) (rest : list team_row) :
  NoDup (map id (teams s)) ->
  teams_led_by (user_id u) s = team :: rest ->
  let s' := store_after (discard_team_logic u) s in
  (exists u', outcome (discard_team_logic u) s = Return (u', TeamDiscarded (team_name team)))
  /\ teams_led_by (user_id u) s' = rest
  /\ (List.length (teams s') + 1 = List.length (teams s))%nat
  /\ (forall r, In r (teams s') <-> In r (teams s) /\ r <> team)
  /\ (forall m, In m (members s') <-> In m (members s) /\ team_id m <> id team)
  /\ scrims s' = scrims s.
Proof.
  intros Hnd Hled. cbv zeta.
  assert (Hteam : In team (teams s)).
  { assert (H : In team (teams_led_by (user_id u) s)) by (rewrite Hled; left; reflexivity).
    unfold teams_led_by in H. apply filter_In in H. tauto. }
  split.
  { unfold outcome, discard_team_logic. rewrite Hled. eexists. reflexivity. }
  split; [exact (discard_led_rows u s team rest Hnd Hled)|].
  destruct (discard_team_logic_deletes u s Hled) as [Hteams Hmembers].
  split; [rewrite Hteams; exact (length_without_id (teams s) team Hnd Hteam)|].
  split.
  { intros r. rewrite Hteams, filter_In, Bool.negb_true_iff, Z.eqb_neq.
    split; intros [Hin Hne]; (split; [exact Hin|]).
    - intros ->. apply Hne. reflexivity.
    - intros Heq. apply Hne. exact (same_id_same_row (teams s) r team Hnd Hin Hteam Heq). }
  split.
  { intros m. rewrite Hmembers, filter_In, Bool.negb_true_iff, Z.eqb_neq. reflexivity. }
  unfold store_after, discard_team_logic. rewrite Hled. reflexivity.
Qed.

(** Leader [ann] discards team [ABC], which has a row from creation and a
    signup row. *)
Lemma discard_removes_one_row_witness :
  let s' := store_after (discard_team_logic ann) store_signed in
  (exists u', outcome (discard_team_logic ann) store_signed
              = Return (u', TeamDiscarded "ABC"))
  /\ teams_led_by 7 s' = [mk_team 2 "ABC" (Some "05/06"%string) 7]
  /\ (List.length (teams s') + 1 = List.length (teams store_signed))%nat
  /\ (forall r, In r (teams s')
                <-> In r (teams store_signed) /\ r <> mk_team 1 "ABC" (Some EmptyString) 7)
  /\ (forall m, In m (members s') <-> In m (members store_signed) /\ team_id m <> 1)
  /\ scrims s' = scrims store_signed.
Proof.
  apply (discard_removes_one_row ann store_signed
           (mk_team 1 "ABC" (Some EmptyString) 7)
           [mk_team 2 "ABC" (Some "05/06"%string) 7]).
  - simpl. repeat constructor; simpl; intuition discriminate.
  - reflexivity.
Defined.

Lemma discard_team_logic_shape (u : user) (s : Store) :
  exists u1 r,
    discard_team_logic u s = (store_after (discard_team_logic u) s, Return (u1, r))
    /\ user_id u1 = user_id u.
Proof.
  unfold store_after, discard_team_logic.
  destruct (teams_led_by (user_id u) s); eexists; eexists; split; reflexivity.
Qed.

Lemma discard_keeps_ids_unique (u : user) (s : Store) :
  NoDup (map id (teams s)) -> NoDup (map id (teams (store_after (discard_team_logic u) s))).
Proof.
  intros H. unfold store_after, discard_team_logic.
  destruct (teams_led_by (user_id u) s); [exact H|]. simpl.
  apply NoDup_map_filter. exact H.
Qed.

Lemma discard_times_led_rows (k : nat) (u : user) (s : Store) :
  NoDup (map id (teams s)) ->
  teams_led_by (user_id u) (discard_times k u s) = skipn k (teams_led_by (user_id u) s).
Proof.
  revert u s. induction k as [|k IH]; intros u s Hnd; [reflexivity|].
  simpl. destruct (discard_team_logic_shape u s) as [u1 [r [Hrun Hid]]].
  rewrite Hrun. rewrite <- Hid.
  rewrite (IH u1 _ (discard_keeps_ids_unique u s Hnd)). rewrite Hid.
  destruct (teams_led_by (user_id u) s) as [|team rest] eqn:Hled.
  - unfold store_after, discard_team_logic. rewrite Hled. simpl. rewrite Hled.
    destruct k; reflexivity.
  - rewrite (discard_led_rows u s team rest Hnd Hled). reflexivity.
Qed.

(** X9: with rowids unique, a leader whose team has [n] rows (one from
    creation and one per signup) has to press Discard Team [n] times:
    after [k] presses the rows he leads are the ones after the first [k],
    so he leads none after [n] presses and still leads one after fewer. *)
Theorem discard_once_per_row (k : nat) (u : user) (s : Store) :
  NoDup (map id (teams s)) ->
  teams_led_by (user_id u) (discard_times k u s) = skipn k (teams_led_by (user_id u) s)
  /\ teams_led_by (user_id u)
       (discard_times (List.length (teams_led_by (user_id u) s)) u s) = []
  /\ ((k < List.length (teams_led_by (user_id u) s))%nat ->
      teams_led_by (user_id u) (discard_times k u s) <> []).
Proof.
  intros Hnd. split; [exact (discard_times_led_rows k u s Hnd)|]. split.
  - rewrite (discard_times_led_rows _ u s Hnd). apply skipn_all.
  - intros Hk. rewrite (discard_times_led_rows k u s Hnd). intros Hnil.
    assert (Hlen : List.length (skipn k (teams_led_by (user_id u) s)) = 0%nat)
      by (rewrite Hnil; reflexivity).
    rewrite length_skipn in Hlen. lia.
Qed.

(** Leader [ann] and team [ABC] with two rows: one press leaves the signup
    row, two presses leave none. *)
Lemma discard_once_per_row_witness :
  teams_led_by 7 (discard_times 1 ann store_signed) = skipn 1 (teams_led_by 7 store_signed)
  /\ teams_led_by 7 (discard_times (List.length (teams_led_by 7 store_signed)) ann store_signed)
     = []
  /\ ((1 < List.length (teams_led_by 7 store_signed))%nat ->
      teams_led_by 7 (discard_times 1 ann store_signed) <> []).
Proof.
  apply (discard_once_per_row 1 ann store_signed).
  simpl. repeat constructor; simpl; intuition discriminate.
Defined.

(** ** Cancelling, in general *)

Lemma with_teams_same (s : Store) : with_teams (teams s) (seq_teams s) s = s.
Proof. destruct s; reflexivity. Qed.

Lemma cancelled_row_true (name : string) (dates : list string) (r : team_row) :
  cancelled_row name dates r = true
  <-> team_name r = name /\ exists d, In d dates /\ scrim_time r = Some d.
Proof.
  unfold cancelled_row, string_eqb. rewrite Bool.andb_true_iff, String.eqb_eq, existsb_exists.
  split; intros [Hname [d [Hd Hmatch]]]; (split; [exact Hname|]); exists d; (split; [exact Hd|]).
  - unfold column_is, string_eqb in Hmatch. destruct (scrim_time r) as [c|]; [|discriminate].
    apply String.eqb_eq in Hmatch. subst c. reflexivity.
  - rewrite Hmatch. unfold column_is, string_eqb. apply String.eqb_refl.
Qed.

Lemma cancel_teams (name : string) (dates : list string) (s : Store) :
  teams (store_after (cancel_select_callback name dates) s)
  = filter (fun r => negb (cancelled_row name dates r)) (teams s).
Proof. rewrite cancel_as_filter. reflexivity. Qed.

(** X10: the cancel callback deletes exactly the rows of the team whose
    date is one of the selected dates.  Afterwards the team has no row for
    a selected date; every row of another team or for another date is still
    there, in its place; no row is new, and the other tables are
    untouched. *)
Theorem cancel_removes_selected_dates
        (name : string) (dates : list string) (s : Store) (d : string) :
  In d dates ->
  let s' := store_after (cancel_select_callback name dates) s in
  outcome (cancel_select_callback name dates) s = Return (Cancelled dates)
  /\ signed_up d (scrim_times_of name s') = false
  /\ (forall r, In r (teams s')
                <-> In r (teams s)
                    /\ ~ (team_name r = name /\ exists d', In d' dates /\ scrim_time r = Some d'))
  /\ members s' = members s
  /\ scrims s' = scrims s.
Proof.
  intros Hd. cbv zeta. split; [reflexivity|].
  assert (Hrows : forall r, In r (teams (store_after (cancel_select_callback name dates) s))
                            <-> In r (teams s)
                                /\ ~ (team_name r = name
                                      /\ exists d', In d' dates /\ scrim_time r = Some d')).
  { intros r. rewrite cancel_teams, filter_In, Bool.negb_true_iff.
    rewrite <- cancelled_row_true, Bool.not_true_iff_false. reflexivity. }
  split.
  { apply Bool.not_true_iff_false. intros Hsigned.
    unfold signed_up, scrim_times_of, teams_named in Hsigned.
    apply existsb_exists in Hsigned as [v [Hv Hmatch]].
    apply in_map_iff in Hv as [r [<- Hr]]. apply filter_In in Hr as [Hin Hname].
    apply Hrows in Hin as [_ Hnot]. apply Hnot.
    split; [apply String.eqb_eq; exact Hname|]. exists d. split; [exact Hd|].
    unfold column_is, string_eqb in Hmatch. destruct (scrim_time r) as [c|]; [|discriminate].
    apply String.eqb_eq in Hmatch. subst c. reflexivity. }
  split; [exact Hrows|].
  rewrite cancel_as_filter. split; reflexivity.
Qed.

(** Team [ABC] cancels its signup for [05/06]. *)
Lemma cancel_removes_selected_dates_witness :
  let s' := store_after (cancel_select_callback "ABC" ["05/06"%string]) store_signed in
  outcome (cancel_select_callback "ABC" ["05/06"%string]) store_signed
  = Return (Cancelled ["05/06"%string])
  /\ signed_up "05/06" (scrim_times_of "ABC" s') = false
  /\ (forall r, In r (teams s')
                <-> In r (teams store_signed)
                    /\ ~ (team_name r = "ABC"%string
                          /\ exists d', In d' ["05/06"%string] /\ scrim_time r = Some d'))
  /\ members s' = members store_signed
  /\ scrims s' = scrims store_signed.
Proof.
  apply (cancel_removes_selected_dates "ABC" ["05/06"%string] store_signed "05/06").
  left. reflexivity.
Defined.

(** X11: cancelling dates the team has no row for changes nothing, and
    cancelling the same dates a second time changes nothing more. *)
Theorem cancel_missing_date_is_no_op (name : string) (dates : list string) (s : Store) :
  ((forall d, In d dates -> signed_up d (scrim_times_of name s) = false) ->
   store_after (cancel_select_callback name dates) s = s)
  /\ store_after (cancel_select_callback name dates)
       (store_after (cancel_select_callback name dates) s)
     = store_after (cancel_select_callback name dates) s.
Proof.
  split.
  - intros Hnone. rewrite cancel_as_filter. rewrite filter_all; [apply with_teams_same|].
    intros r Hr. apply Bool.negb_true_iff. apply Bool.not_true_iff_false. intros Hc.
    apply cancelled_row_true in Hc as [Hname [d [Hd Htime]]].
    specialize (Hnone d Hd). apply Bool.not_true_iff_false in Hnone. apply Hnone.
    unfold signed_up, scrim_times_of, teams_named. apply existsb_exists.
    exists (scrim_time r). split.
    + apply in_map. apply filter_In. split; [exact Hr|]. apply String.eqb_eq. exact Hname.
    + rewrite Htime. unfold column_is, string_eqb. apply String.eqb_refl.
  - rewrite !cancel_as_filter. unfold with_teams. simpl. f_equal.
    rewrite filter_twice. apply filter_ext. intros r.
    destruct (cancelled_row name dates r); reflexivity.
Qed.



(** The first [n] characters are at most [n] characters. *)
Lemma py_take_len_le (n : nat) (t : string) : (py_len (py_take n t) <= n)%nat.
Proof.
  revert n. induction t as [|a t IH]; intros n; simpl; [lia|].
  destruct (starts_character a) eqn:Ha.
  - destruct n as [|k]; simpl; [lia|]. rewrite Ha. specialize (IH k). lia.
  - simpl. rewrite Ha. apply IH.
Qed.





(** X13: a row whose date is longer than 100 characters cannot be
    cancelled: the menu offers the date cut to its first 100 characters,
    and the [DELETE] for a value of the menu never matches the row. *)
Theorem long_date_cannot_be_cancelled
        (name : string) (dates : list string) (s : Store) (r : team_row) (t : string) :
  In r (teams s) ->
  scrim_time r = Some t ->
  (100 < py_len t)%nat ->
  incl dates (cancel_options name s) ->
  In r (teams (store_after (cancel_select_callback name dates) s)).
Proof.
  intros Hin Htime Hlong Hdates.
  rewrite cancel_teams. apply filter_In. split; [exact Hin|].
  apply Bool.negb_true_iff. apply Bool.not_true_iff_false. intros Hc.
  apply cancelled_row_true in Hc as [_ [d [Hd Hmatch]]].
  rewrite Htime in Hmatch. injection Hmatch as <-.
  apply Hdates in Hd. unfold cancel_options in Hd.
  apply in_map_iff in Hd as [c [Hcut _]].
  pose proof (py_take_len_le 100 c) as Hle. rewrite Hcut in Hle. lia.
Qed.

(** The row with the long date survives the cancelling of all that the
    menu offers. *)
Lemma long_date_cannot_be_cancelled_witness :
  In (mk_team 1 "ABC" (Some (pad 96 "05/06")) 7)
     (teams (store_after (cancel_select_callback "ABC" (cancel_options "ABC" store_long))
                         store_long)).
Proof.
  apply (long_date_cannot_be_cancelled "ABC" (cancel_options "ABC" store_long) store_long
           (mk_team 1 "ABC" (Some (pad 96 "05/06")) 7) (pad 96 "05/06")).
  - left. reflexivity.
  - reflexivity.
  - vm_compute. lia.
  - apply incl_refl.
Defined.

(** ** From a signup to the views *)

Lemma signup_block_teams (name : string) (leader : Z) (day : string) (s : Store) :
  count_scrim_time day s < 12 ->
  transaction_generator (signup_day_body name leader day) s
  = (with_teams (teams s ++ [mk_team (next_id id (teams s) (seq_teams s)) name (Some day) leader])
                (next_id id (teams s) (seq_teams s)) s,
     Return (FieldSuccess day)).
Proof.
  intros Hlt. unfold transaction_generator.
  rewrite (@signup_day_body_accepts name leader day s Hlt). reflexivity.
Qed.

(** X14: when the signup block is entered with fewer than 12 rows for a
    day, the team is from then on the last participant of that day and the
    day the last date of its schedule; the participants of other days and
    the schedules of other teams are as before. *)
Theorem accepted_signup_is_listed (name : string) (leader : Z) (day : string) (s : Store) :
  count_scrim_time day s < 12 ->
  day <> EmptyString ->
  let signup := transaction_generator (signup_day_body name leader day) in
  let s' := store_after signup s in
  outcome signup s = Return (FieldSuccess day)
  /\ teams_at day s' = teams_at day s ++ [name]
  /\ truthy_times name s' = truthy_times name s ++ [day]
  /\ signed_up day (scrim_times_of name s') = true
  /\ (forall other, other <> day -> teams_at other s' = teams_at other s)
  /\ (forall other, other <> name -> truthy_times other s' = truthy_times other s).
Proof.
  intros Hlt Hday. cbv zeta. unfold outcome, store_after.
  rewrite (signup_block_teams name leader day s Hlt). cbn [fst snd].
  assert (Hname : string_eqb name name = true) by apply String.eqb_refl.
  assert (Hdayeq : string_eqb day day = true) by apply String.eqb_refl.
  assert (Hne : string_eqb day EmptyString = false) by (apply String.eqb_neq; exact Hday).
  split; [reflexivity|]. split.
  { unfold teams_at, with_teams. simpl. rewrite filter_app, map_app. simpl.
    rewrite Hdayeq. reflexivity. }
  split.
  { unfold truthy_times, scrim_times_of, teams_named, with_teams. simpl.
    rewrite filter_app, map_app, flat_map_app. simpl. rewrite Hname. simpl.
    rewrite Hne. reflexivity. }
  split.
  { unfold signed_up, scrim_times_of, teams_named, with_teams. simpl.
    rewrite filter_app, map_app, existsb_app. simpl. rewrite Hname. simpl.
    rewrite Hdayeq. apply Bool.orb_true_r. }
  split.
  - intros other Hother. unfold teams_at, with_teams. simpl. rewrite filter_app, map_app.
    simpl. replace (string_eqb day other) with false; [apply app_nil_r|].
    symmetry. apply String.eqb_neq. intros Heq. apply Hother. symmetry. exact Heq.
  - intros other Hother. unfold truthy_times, scrim_times_of, teams_named, with_teams. simpl.
    rewrite filter_app, map_app, flat_map_app. simpl.
    replace (string_eqb name other) with false; [apply app_nil_r|].
    symmetry. apply String.eqb_neq. intros Heq. apply Hother. symmetry. exact Heq.
Qed.

(** Team [ABC] signs up for [05/06] on the store that holds only the
    team. *)
Lemma accepted_signup_is_listed_witness :
  let signup := transaction_generator (signup_day_body "ABC" 7 "05/06") in
  let s' := store_after signup store_abc in
  outcome signup store_abc = Return (FieldSuccess "05/06")
  /\ teams_at "05/06" s' = teams_at "05/06" store_abc ++ ["ABC"%string]
  /\ truthy_times "ABC" s' = truthy_times "ABC" store_abc ++ ["05/06"%string]
  /\ signed_up "05/06" (scrim_times_of "ABC" s') = true
  /\ (forall other, other <> "05/06"%string -> teams_at other s' = teams_at other store_abc)
  /\ (forall other, other <> "ABC"%string
                    -> truthy_times other s' = truthy_times other store_abc).
Proof.
  apply (accepted_signup_is_listed "ABC" 7 "05/06" store_abc).
  - vm_compute. reflexivity.
  - discriminate.
Defined.

(** X15: in every store reachable from the empty tables, by the handlers
    and by the blocks under the transactions, the participants view of a
    day lists at most 12 teams. *)
Theorem participants_at_most_twelve (s : Store) (date_of : Z -> string) (o : Z) :
  reachable s ->
  date_of o <> EmptyString ->
  exists names,
    outcome (participants_logic date_of o) s
    = Return (Participants (date_of o) names (participants_view o))
    /\ (List.length names <= 12)%nat.
Proof.
  intros Hreach Hdate. exists (teams_at (date_of o) s). split; [reflexivity|].
  pose proof (@reachable_slot_cap s (date_of o) Hreach Hdate) as Hcap.
  unfold count_scrim_time in Hcap. unfold teams_at. rewrite length_map. lia.
Qed.

(** The participants of [05/06] in the store with twelve signups. *)
Lemma participants_at_most_twelve_witness :
  exists names,
    outcome (participants_logic (fun _ => "05/06"%string) 0) store_full
    = Return (Participants "05/06" names (participants_view 0))
    /\ (List.length names <= 12)%nat.
Proof.
  apply (participants_at_most_twelve store_full (fun _ => "05/06"%string) 0).
  - exact store_full_reachable.
  - discriminate.
Defined.

(** ** Rowids and slot periods *)

Lemma ids_fresh_filter {R} (key : R -> Z) (p : R -> bool) (rows : list R) (seq : Z) :
  ids_fresh key rows seq -> ids_fresh key (filter p rows) seq.
Proof.
  intros [Hnd Hle]. split; [apply NoDup_map_filter; exact Hnd|].
  intros r Hr. apply filter_In in Hr. apply Hle. tauto.
Qed.

Lemma ids_fresh_nil {R} (key : R -> Z) (seq : Z) : ids_fresh key [] seq.
Proof. split; [constructor | intros r []]. Qed.

Lemma NoDup_snoc {X} (l : list X) (x : X) : NoDup l -> ~ In x l -> NoDup (l ++ [x]).
Proof.
  induction l as [|y l IH]; simpl; intros Hnd Hnotin; [repeat constructor; intros []|].
  inversion Hnd as [|z zs Hy Hrest]; subst. constructor.
  - intros Hin. apply in_app_or in Hin as [Hin | [-> | []]]; [exact (Hy Hin)|].
    apply Hnotin. left. reflexivity.
  - apply IH; [exact Hrest|]. intros Hin. apply Hnotin. right. exact Hin.
Qed.

Lemma ids_fresh_insert {R} (key : R -> Z) (rows : list R) (seq : Z) (row : R) :
  ids_fresh key rows seq ->
  key row = next_id key rows seq ->
  ids_fresh key (rows ++ [row]) (next_id key rows seq).
Proof.
  intros [Hnd Hle] Hkey. unfold next_id in *. split.
  - rewrite map_app. simpl. apply NoDup_snoc; [exact Hnd|].
    intros Hin. apply in_map_iff in Hin as [r [Hr Hrin]].
    specialize (Hle r Hrin). lia.
  - intros r Hr. apply in_app_or in Hr as [Hr | [<- | []]]; [specialize (Hle r Hr)|]; lia.
Qed.

Lemma step_keeps_well_formed (s s' : Store) : step s s' -> well_formed s -> well_formed s'.
Proof.
  intros Hstep [Hs [Ht [Hm Hp]]]. destruct Hstep.
  all: try (rewrite ?create_team_logic_store, ?quit_team_logic_store,
              ?scrim_signup_logic_store, ?signup_select_callback_store;
            repeat split; solve [apply Hs | apply Ht | apply Hm | exact Hp]).
  - unfold store_after, discard_team_logic.
    destruct (teams_led_by (user_id u) s); [repeat split; solve [apply Hs | apply Ht | apply Hm | exact Hp]|].
    unfold well_formed. simpl.
    split; [exact Hs|]. split; [apply ids_fresh_filter; exact Ht|].
    split; [apply ids_fresh_filter; exact Hm | exact Hp].
  - unfold well_formed, store_after, reset_database_logic. simpl.
    repeat split; try constructor; intros r [].
  - rewrite cancel_as_filter. unfold well_formed, with_teams. simpl.
    split; [exact Hs|]. split; [apply ids_fresh_filter; exact Ht|]. split; [exact Hm | exact Hp].
  - unfold store_after, transaction_generator, signup_day_body.
    destruct (count_scrim_time day s <? 12);
      [|repeat split; solve [apply Hs | apply Ht | apply Hm | exact Hp]].
    unfold well_formed. simpl.
    split; [exact Hs|]. split; [apply ids_fresh_insert; [exact Ht | reflexivity]|].
    split; [exact Hm | exact Hp].
  - unfold store_after, transaction_generator, add_team_member_body.
    destruct (count_members team s <? 5);
      [|repeat split; solve [apply Hs | apply Ht | apply Hm | exact Hp]].
    unfold well_formed. simpl.
    split; [exact Hs|]. split; [exact Ht|].
    split; [apply ids_fresh_insert; [exact Hm | reflexivity] | exact Hp].
  - unfold well_formed, store_after, transaction_generator, add_team_body, insert_team. simpl.
    split; [exact Hs|]. split; [apply ids_fresh_insert; [exact Ht | reflexivity]|].
    split; [exact Hm | exact Hp].
  - unfold store_after, transaction_generator, add_scrim_time_body, insert_scrim.
    destruct (existsb _ (scrims s)) eqn:Hknown;
      [repeat split; solve [apply Hs | apply Ht | apply Hm | exact Hp]|].
    unfold well_formed. simpl.
    split; [apply ids_fresh_insert; [exact Hs | reflexivity]|].
    split; [exact Ht|]. split; [exact Hm|].
    rewrite map_app. simpl. apply NoDup_snoc; [exact Hp|].
    intros Hin. apply in_map_iff in Hin as [r [Hr Hrin]].
    apply Bool.not_true_iff_false in Hknown. apply Hknown.
    apply existsb_exists. exists r. split; [exact Hrin|]. apply String.eqb_eq. exact Hr.
Qed.

Lemma reachable_well_formed (s : Store) : reachable s -> well_formed s.
Proof.
  intros H. induction H as [|s s' _ IH Hstep].
  - unfold well_formed. simpl. repeat split; try constructor; intros r [].
  - exact (step_keeps_well_formed s s' Hstep IH).
Qed.

(** X16: in every store reachable from the empty tables, by the handlers
    and by the blocks under the transactions, the rowids of each table are
    pairwise distinct, no two slots have the same period, and the rowid
    the next team row gets is above that of every team row in the table. *)
Theorem reachable_rowids_are_unique (s : Store) :
  reachable s ->
  NoDup (map id (teams s))
  /\ NoDup (map member_id (members s))
  /\ NoDup (map scrim_id (scrims s))
  /\ NoDup (map time_period (scrims s))
  /\ (forall r, In r (teams s) -> id r < next_id id (teams s) (seq_teams s))
  /\ (forall (name time : string) (leader : Z) (r : team_row),
        In r (teams s) ->
        outcome (insert_team name time leader) s <> Return (id r)).
Proof.
  intros H. destruct (reachable_well_formed s H) as [[Hsn Hsl] [[Htn Htl] [[Hmn Hml] Hp]]].
  split; [exact Htn|]. split; [exact Hmn|]. split; [exact Hsn|]. split; [exact Hp|].
  assert (Hnext : forall r, In r (teams s) -> id r < next_id id (teams s) (seq_teams s)).
  { intros r Hr. specialize (Htl r Hr). unfold next_id. lia. }
  split; [exact Hnext|].
  intros name time leader r Hr. unfold outcome, insert_team. simpl.
  intros Heq. injection Heq as Heq. specialize (Hnext r Hr). lia.
Qed.

(** The store of team [ABC] with its signup and its member. *)
Lemma reachable_rowids_are_unique_witness :
  NoDup (map id (teams store_signed))
  /\ NoDup (map member_id (members store_signed))
  /\ NoDup (map scrim_id (scrims store_signed))
  /\ NoDup (map time_period (scrims store_signed))
  /\ (forall r, In r (teams store_signed)
                -> id r < next_id id (teams store_signed) (seq_teams store_signed))
  /\ (forall (name time : string) (leader : Z) (r : team_row),
        In r (teams store_signed) ->
        outcome (insert_team name time leader) store_signed <> Return (id r)).
Proof.
  apply (reachable_rowids_are_unique store_signed).
  exact store_signed_reachable.
Defined.

(** ** Buttons and their routes *)

Lemma has_char_app (c : ascii) (p d : string) :
  has_char c (p ++ String c d) = true.
Proof.
  induction p as [|a p IH]; simpl.
  - rewrite Ascii.eqb_refl. reflexivity.
  - rewrite IH. apply Bool.orb_true_r.
Qed.

Lemma split_last_app (c : ascii) (p d : string) :
  has_char c d = false -> split_last c (p ++ String c d) = d.
Proof.
  intros Hd. induction p as [|a p IH]; simpl.
  - rewrite Hd, Ascii.eqb_refl. reflexivity.
  - rewrite has_char_app. exact IH.
Qed.

Lemma digits_have_no_underscore (d : Decimal.uint) :
  has_char "_" (NilEmpty.string_of_uint d) = false.
Proof. induction d; simpl; try reflexivity; exact IHd. Qed.

Lemma str_of_int_no_underscore (n : Z) : has_char "_" (str_of_int n) = false.
Proof.
  unfold str_of_int, NilZero.string_of_int, NilZero.string_of_uint.
  destruct (Z.to_int n) as [d | d]; destruct d; simpl; try reflexivity;
    apply digits_have_no_underscore.
Qed.

(** [int(f"{n}")] is [n]. *)
Lemma int_of_str_of_int (n : Z) : int_of_str (str_of_int n) = Some n.
Proof.
  unfold int_of_str, str_of_int.
  assert (H : forall d, option_map Z.of_int (NilZero.int_of_string (NilZero.string_of_int d))
                        = Some (Z.of_int d)).
  { intros [d | d]; destruct d;
      try reflexivity; rewrite NilZero.isi by discriminate; reflexivity. }
  rewrite H. f_equal. apply DecimalZ.of_to.
Qed.

Lemma split_last_previous (n : Z) :
  split_last "_" ("participants_prev_" ++ str_of_int n) = str_of_int n.
Proof.
  exact (split_last_app "_" "participants_prev" (str_of_int n) (str_of_int_no_underscore n)).
Qed.

Lemma split_last_next (n : Z) :
  split_last "_" ("participants_next_" ++ str_of_int n) = str_of_int n.
Proof.
  exact (split_last_app "_" "participants_next" (str_of_int n) (str_of_int_no_underscore n)).
Qed.

Lemma route_previous (n : Z) :
  on_interaction ("participants_prev_" ++ str_of_int n) = Some (ToParticipants (Return n)).
Proof.
  unfold on_interaction.
  rewrite split_last_previous, int_of_str_of_int, startswith_app. reflexivity.
Qed.

Lemma route_next (n : Z) :
  on_interaction ("participants_next_" ++ str_of_int n) = Some (ToParticipants (Return n)).
Proof.
  unfold on_interaction.
  rewrite split_last_next, int_of_str_of_int, startswith_app.
  rewrite Bool.orb_true_r. reflexivity.
Qed.

(** X17: the day offset written into the [custom_id] of a navigation
    button is the one [on_interaction] reads back, for every integer: the
    id built for offset [n] is routed to the participants view of [n]. *)
Theorem custom_id_round_trip (n : Z) :
  on_interaction ("participants_prev_" ++ str_of_int n) = Some (ToParticipants (Return n))
  /\ on_interaction ("participants_next_" ++ str_of_int n) = Some (ToParticipants (Return n))
  /\ on_interaction_day_offset ("participants_prev_" ++ str_of_int n) = Some (Return n)
  /\ on_interaction_day_offset ("participants_next_" ++ str_of_int n) = Some (Return n).
Proof.
  split; [apply route_previous|]. split; [apply route_next|].
  unfold on_interaction_day_offset.
  rewrite split_last_previous, split_last_next, int_of_str_of_int, !startswith_app.
  rewrite Bool.orb_true_r. split; reflexivity.
Qed.

(** X18: every button of the menus, of the message after a team is
    created and of the participants view of any day offset is taken by a
    branch of [on_interaction]; the previous-day and next-day buttons of the
    view of offset [o] lead to the views of [o - 1] and [o + 1]; and no
    button carries the id [list_teams], the one branch that leads to
    [list_teams_logic]. *)
Theorem every_button_is_routed (o : Z) (b : button) :
  In b (MenuView ++ TeamView ++ ScrimView ++ created_view ++ participants_view o) ->
  on_interaction (custom_id b) <> None
  /\ on_interaction (custom_id b) <> Some (ToListTeams "21:00")
  /\ (label b = "Previous Day"%string ->
      on_interaction (custom_id b) = Some (ToParticipants (Return (o - 1))))
  /\ (label b = "Next Day"%string ->
      on_interaction (custom_id b) = Some (ToParticipants (Return (o + 1)))).
Proof.
  intros Hb. rewrite !in_app_iff in Hb.
  destruct Hb as [Hb | [Hb | [Hb | [Hb | Hb]]]].
  1-4: simpl in Hb; repeat (destruct Hb as [<- | Hb]); try contradiction;
       repeat split; try discriminate; vm_compute; discriminate.
  unfold participants_view in Hb. rewrite !in_app_iff in Hb.
  destruct Hb as [Hb | [Hb | Hb]].
  - destruct (o >? 0); [|contradiction]. destruct Hb as [<- | []]. cbn [custom_id label].
    rewrite route_previous. repeat split; try discriminate; reflexivity.
  - destruct (o <? 6); [|contradiction]. destruct Hb as [<- | []]. cbn [custom_id label].
    rewrite route_next. repeat split; try discriminate; reflexivity.
  - destruct Hb as [<- | []]. repeat split; try discriminate; vm_compute; discriminate.
Qed.

(** The next-day button of the participants view of offset 2. *)
Lemma every_button_is_routed_witness :
  on_interaction "participants_next_3" <> None
  /\ on_interaction "participants_next_3" <> Some (ToListTeams "21:00")
  /\ ("Next Day"%string = "Previous Day"%string ->
      on_interaction "participants_next_3" = Some (ToParticipants (Return (2 - 1))))
  /\ ("Next Day"%string = "Next Day"%string ->
      on_interaction "participants_next_3" = Some (ToParticipants (Return (2 + 1)))).
Proof.
  apply (every_button_is_routed 2 (mk_button "Next Day" "participants_next_3")).
  vm_compute. tauto.
Defined.

(** ** The schema at start-up *)

Lemma find_snoc {X} (p : X -> bool) (l : list X) (x : X) :
  find p (l ++ [x]) = match find p l with
                      | Some y => Some y
                      | None => if p x then Some x else None
                      end.
Proof.
  induction l as [|y l IH]; simpl; [reflexivity|].
  destruct (p y); [reflexivity | exact IH].
Qed.

Lemma has_table_find (name : string) (sch : Schema) :
  has_table name sch
  = match find (fun t => string_eqb (table_name t) name) (schema_tables sch) with
    | Some _ => true
    | None => false
    end.
Proof. apply existsb_find. Qed.

Lemma create_table_present (t : table) (sch : Schema) :
  has_table (table_name t) (create_table t sch) = true.
Proof.
  unfold create_table. destruct (has_table (table_name t) sch) eqn:H; [exact H|].
  unfold has_table. simpl. rewrite existsb_app. simpl.
  unfold string_eqb. rewrite String.eqb_refl. rewrite Bool.orb_true_r. reflexivity.
Qed.

Lemma create_table_keeps (name : string) (t : table) (sch : Schema) :
  has_table name sch = true -> has_table name (create_table t sch) = true.
Proof.
  intros H. unfold create_table. destruct (has_table (table_name t) sch); [exact H|].
  unfold has_table in *. simpl. rewrite existsb_app, H. reflexivity.
Qed.

Lemma create_index_present (i : sql_index) (sch : Schema) :
  has_index (index_name i) (create_index i sch) = true.
Proof.
  unfold create_index. destruct (has_index (index_name i) sch) eqn:H; [exact H|].
  unfold has_index. simpl. rewrite existsb_app. simpl.
  unfold string_eqb. rewrite String.eqb_refl. rewrite Bool.orb_true_r. reflexivity.
Qed.

Lemma create_index_keeps (name : string) (i : sql_index) (sch : Schema) :
  has_index name sch = true -> has_index name (create_index i sch) = true.
Proof.
  intros H. unfold create_index. destruct (has_index (index_name i) sch); [exact H|].
  unfold has_index in *. simpl. rewrite existsb_app, H. reflexivity.
Qed.

Lemma create_index_tables (i : sql_index) (sch : Schema) :
  schema_tables (create_index i sch) = schema_tables sch.
Proof. unfold create_index. destruct (has_index (index_name i) sch); reflexivity. Qed.

Lemma create_indexes_tables (sch : Schema) :
  schema_tables (create_indexes sch) = schema_tables sch.
Proof. unfold create_indexes. rewrite !create_index_tables. reflexivity. Qed.

Lemma create_table_known (t : table) (sch : Schema) :
  has_table (table_name t) sch = true -> create_table t sch = sch.
Proof. intros H. unfold create_table. rewrite H. reflexivity. Qed.

Lemma create_index_known (i : sql_index) (sch : Schema) :
  has_index (index_name i) sch = true -> create_index i sch = sch.
Proof. intros H. unfold create_index. rewrite H. reflexivity. Qed.

Lemma has_table_create_indexes (name : string) (sch : Schema) :
  has_table name (create_indexes sch) = has_table name sch.
Proof. unfold has_table. rewrite create_indexes_tables. reflexivity. Qed.

Lemma bot_setup_shape (sch : Schema) : bot_setup sch = setup_with teams_table_bot sch.
Proof. unfold bot_setup, setup_with. reflexivity. Qed.

Lemma init_db_shape (sch : Schema) : init_db sch = setup_with teams_table_init sch.
Proof. unfold init_db, setup_with. reflexivity. Qed.

Lemma setup_with_again (t t' : table) (sch : Schema) :
  table_name t = "teams"%string -> table_name t' = "teams"%string ->
  setup_with t' (setup_with t sch) = setup_with t sch.
Proof.
  intros Ht Ht'.
  assert (Hscrims : has_table "scrims" (setup_with t sch) = true).
  { unfold setup_with. rewrite has_table_create_indexes.
    do 2 apply create_table_keeps. exact (create_table_present scrims_table sch). }
  assert (Hteams : has_table "teams" (setup_with t sch) = true).
  { unfold setup_with. rewrite has_table_create_indexes.
    apply create_table_keeps. rewrite <- Ht. apply create_table_present. }
  assert (Hmembers : has_table "members" (setup_with t sch) = true).
  { unfold setup_with. rewrite has_table_create_indexes.
    exact (create_table_present members_table _). }
  unfold setup_with at 1.
  rewrite (create_table_known scrims_table _ Hscrims).
  rewrite (create_table_known t' (setup_with t sch)) by (rewrite Ht'; exact Hteams).
  rewrite (create_table_known members_table _ Hmembers).
  unfold create_indexes at 1.
  rewrite (create_index_known (mk_index "idx_scrims_time_period" "scrims" "time_period"));
    [|unfold setup_with, create_indexes; do 3 apply create_index_keeps;
      apply create_index_present].
  rewrite (create_index_known (mk_index "idx_teams_team_name" "teams" "team_name"));
    [|unfold setup_with, create_indexes; do 2 apply create_index_keeps;
      apply create_index_present].
  rewrite (create_index_known (mk_index "idx_teams_scrim_time" "teams" "scrim_time"));
    [|unfold setup_with, create_indexes; apply create_index_keeps;
      apply create_index_present].
  apply create_index_known. unfold setup_with, create_indexes. apply create_index_present.
Qed.

Lemma declared_unique_setup (t : table) (sch : Schema) :
  table_name t = "teams"%string ->
  has_table "teams" sch = false ->
  declared_unique "teams" "team_name" (setup_with t sch)
  = option_map unique (find (fun c => string_eqb (column_name c) "team_name") (table_columns t)).
Proof.
  intros Ht Hnone. unfold declared_unique, setup_with. rewrite create_indexes_tables.
  assert (Hfind : find (fun x => string_eqb (table_name x) "teams")
                       (schema_tables (create_table t (create_table scrims_table sch)))
                  = Some t).
  { assert (H1 : find (fun x => string_eqb (table_name x) "teams")
                      (schema_tables (create_table scrims_table sch)) = None).
    { rewrite has_table_find in Hnone. unfold create_table.
      destruct (has_table (table_name scrims_table) sch); simpl.
      - destruct (find _ (schema_tables sch)); [discriminate | reflexivity].
      - rewrite find_snoc. destruct (find _ (schema_tables sch)); [discriminate | reflexivity]. }
    unfold create_table at 1. rewrite Ht.
    rewrite (has_table_find "teams" (create_table scrims_table sch)), H1. simpl.
    rewrite find_snoc, H1, Ht. reflexivity. }
  unfold create_table at 1.
  destruct (has_table (table_name members_table) _); simpl.
  - rewrite Hfind. reflexivity.
  - rewrite find_snoc, Hfind. reflexivity.
Qed.

(** X19: the set-up the bot runs at import and [init_db] create the same
    tables and indexes, each only if it is missing.  Run after the bot's
    set-up, [init_db] changes nothing, and each set-up run twice is the
    same as run once.  So on a database without a [teams] table the column
    [teams.team_name] ends up without [UNIQUE], as bot.py declares it, and
    not with it, as [init_db] alone would have declared it. *)
Theorem init_db_after_bot_setup (sch : Schema) :
  has_table "teams" sch = false ->
  init_db (bot_setup sch) = bot_setup sch
  /\ bot_setup (bot_setup sch) = bot_setup sch
  /\ init_db (init_db sch) = init_db sch
  /\ declared_unique "teams" "team_name" (init_db (bot_setup sch)) = Some false
  /\ declared_unique "teams" "team_name" (init_db sch) = Some true.
Proof.
  intros Hnone.
  rewrite (bot_setup_shape sch), (init_db_shape sch).
  rewrite (bot_setup_shape (setup_with teams_table_bot sch)).
  rewrite (init_db_shape (setup_with teams_table_bot sch)).
  rewrite (init_db_shape (setup_with teams_table_init sch)).
  rewrite !setup_with_again by reflexivity.
  split; [reflexivity|]. split; [reflexivity|]. split; [reflexivity|]. split.
  - exact (declared_unique_setup teams_table_bot sch eq_refl Hnone).
  - exact (declared_unique_setup teams_table_init sch eq_refl Hnone).
Qed.

(** The set-ups on a new database file. *)
Lemma init_db_after_bot_setup_witness :
  init_db (bot_setup (mk_schema [] [])) = bot_setup (mk_schema [] [])
  /\ bot_setup (bot_setup (mk_schema [] [])) = bot_setup (mk_schema [] [])
  /\ init_db (init_db (mk_schema [] [])) = init_db (mk_schema [] [])
  /\ declared_unique "teams" "team_name" (init_db (bot_setup (mk_schema [] []))) = Some false
  /\ declared_unique "teams" "team_name" (init_db (mk_schema [] [])) = Some true.
Proof.
  exact (init_db_after_bot_setup (mk_schema [] []) eq_refl).
Defined.

(** ** The lock registry *)

Lemma lock_of_snoc (k lock_id : string) (held : bool) (t : lock_table) :
  lock_of k (t ++ [(lock_id, held)])
  = match lock_of k t with
    | Some h => Some h
    | None => if string_eqb lock_id k then Some held else None
    end.
Proof.
  induction t as [|[k' h] t IH]; simpl; [reflexivity|].
  destruct (string_eqb k' k); [reflexivity | exact IH].
Qed.

Lemma lock_of_set_same (lock_id : string) (held : bool) (t : lock_table) :
  lock_of lock_id t <> None -> lock_of lock_id (set_lock lock_id held t) = Some held.
Proof.
  induction t as [|[k h] t IH]; simpl; intros H; [congruence|].
  destruct (string_eqb k lock_id) eqn:Hk; simpl; rewrite Hk; [reflexivity | exact (IH H)].
Qed.

Lemma lock_of_set_other (k lock_id : string) (held : bool) (t : lock_table) :
  k <> lock_id -> lock_of k (set_lock lock_id held t) = lock_of k t.
Proof.
  intros Hne. induction t as [|[k' h] t IH]; simpl; [reflexivity|].
  destruct (string_eqb k' lock_id) eqn:Hk; simpl.
  - apply String.eqb_eq in Hk. subst k'.
    replace (string_eqb lock_id k) with false; [reflexivity|].
    symmetry. apply String.eqb_neq. congruence.
  - destruct (string_eqb k' k); [reflexivity | exact IH].
Qed.

Lemma acquire_free_lock (lock_id : string) (t : lock_table) :
  lock_of lock_id t <> Some true ->
  snd (acquire_lock lock_id t) = AcquireReturns true
  /\ lock_of lock_id (fst (acquire_lock lock_id t)) = Some true.
Proof.
  intros Hfree. unfold acquire_lock.
  destruct (lock_of lock_id t) as [[|]|] eqn:Hlock; [congruence| |].
  - rewrite Hlock. simpl. split; [reflexivity|]. apply lock_of_set_same. congruence.
  - rewrite lock_of_snoc, Hlock. unfold string_eqb. rewrite String.eqb_refl. simpl.
    split; [reflexivity|]. apply lock_of_set_same.
    rewrite lock_of_snoc, Hlock. unfold string_eqb. rewrite String.eqb_refl. congruence.
Qed.

(** X20: a lock that is free or not yet known is acquired at once with
    answer [True] and is then held: a second [acquire_lock] has to wait;
    [release_lock] frees it again, and a second [release_lock] raises
    [RuntimeError], although the lock id is in the registry. *)
Theorem lock_round_trip (lock_id : string) (t : lock_table) :
  lock_of lock_id t <> Some true ->
  let t1 := fst (acquire_lock lock_id t) in
  let t2 := fst (release_lock lock_id t1) in
  snd (acquire_lock lock_id t) = AcquireReturns true
  /\ lock_of lock_id t1 = Some true
  /\ acquire_lock lock_id t1 = (t1, AcquireWaits)
  /\ snd (release_lock lock_id t1) = ReleaseReturns
  /\ lock_of lock_id t2 = Some false
  /\ release_lock lock_id t2 = (t2, ReleaseRaises).
Proof.
  intros Hfree. cbv zeta.
  destruct (acquire_free_lock lock_id t Hfree) as [Hret Hheld].
  split; [exact Hret|]. split; [exact Hheld|]. split.
  { unfold acquire_lock at 1. rewrite Hheld. cbv beta iota zeta. rewrite Hheld. reflexivity. }
  assert (Hrel : release_lock lock_id (fst (acquire_lock lock_id t))
                 = (set_lock lock_id false (fst (acquire_lock lock_id t)), ReleaseReturns)).
  { unfold release_lock at 1. rewrite Hheld. reflexivity. }
  rewrite Hrel. simpl.
  assert (Hfreed : lock_of lock_id (set_lock lock_id false (fst (acquire_lock lock_id t)))
                   = Some false).
  { apply lock_of_set_same. rewrite Hheld. congruence. }
  split; [reflexivity|]. split; [exact Hfreed|].
  unfold release_lock. rewrite Hfreed. reflexivity.
Qed.

(** The lock [signup] on an empty registry. *)
Lemma lock_round_trip_witness :
  let t1 := fst (acquire_lock "signup" []) in
  let t2 := fst (release_lock "signup" t1) in
  snd (acquire_lock "signup" []) = AcquireReturns true
  /\ lock_of "signup" t1 = Some true
  /\ acquire_lock "signup" t1 = (t1, AcquireWaits)
  /\ snd (release_lock "signup" t1) = ReleaseReturns
  /\ lock_of "signup" t2 = Some false
  /\ release_lock "signup" t2 = (t2, ReleaseRaises).
Proof.
  apply (lock_round_trip "signup" []). discriminate.
Defined.

(** X21: the registry only grows and the locks do not touch each other.
    [release_lock] of an id that was never acquired returns without an
    error and changes nothing; [acquire_lock] and [release_lock] of one id
    leave the state of every other id as it was; and an id that is in the
    registry stays in it, whatever is acquired or released. *)
Theorem lock_registry_only_grows (lock_id k : string) (t : lock_table) :
  (lock_of lock_id t = None -> release_lock lock_id t = (t, ReleaseReturns))
  /\ (k <> lock_id ->
      lock_of k (fst (acquire_lock lock_id t)) = lock_of k t
      /\ lock_of k (fst (release_lock lock_id t)) = lock_of k t)
  /\ (lock_of k t <> None ->
      lock_of k (fst (acquire_lock lock_id t)) <> None
      /\ lock_of k (fst (release_lock lock_id t)) <> None).
Proof.
  assert (Hother : k <> lock_id ->
                   lock_of k (fst (acquire_lock lock_id t)) = lock_of k t
                   /\ lock_of k (fst (release_lock lock_id t)) = lock_of k t).
  { intros Hne. split.
    - unfold acquire_lock. destruct (lock_of lock_id t) as [[|]|] eqn:Hlock.
      + rewrite Hlock. reflexivity.
      + rewrite Hlock. simpl. apply lock_of_set_other. exact Hne.
      + rewrite lock_of_snoc, Hlock. unfold string_eqb at 1. rewrite String.eqb_refl. simpl.
        rewrite (lock_of_set_other k lock_id true _ Hne), lock_of_snoc.
        destruct (lock_of k t); [reflexivity|].
        replace (string_eqb lock_id k) with false; [reflexivity|].
        symmetry. apply String.eqb_neq. congruence.
    - unfold release_lock. destruct (lock_of lock_id t) as [[|]|]; simpl;
        [apply lock_of_set_other; exact Hne | reflexivity | reflexivity]. }
  split.
  { intros Hnone. unfold release_lock. rewrite Hnone. reflexivity. }
  split; [exact Hother|].
  intros Hknown. destruct (String.eqb_spec k lock_id) as [-> | Hne].
  - split.
    + unfold acquire_lock. destruct (lock_of lock_id t) as [[|]|] eqn:Hlock; [| |congruence].
      * rewrite Hlock. simpl. congruence.
      * rewrite Hlock. simpl. rewrite lock_of_set_same; congruence.
    + unfold release_lock. destruct (lock_of lock_id t) as [[|]|] eqn:Hlock; simpl;
        [rewrite lock_of_set_same; congruence | congruence | congruence].
  - destruct (Hother Hne) as [Ha Hr]. rewrite Ha, Hr. split; exact Hknown.
Qed.

(** ** Joining and quitting, on the side of the user *)

Lemma append_assoc (a b c : string) : ((a ++ b) ++ c = a ++ (b ++ c))%string.
Proof. induction a as [|x a IH]; simpl; [reflexivity|]. rewrite IH. reflexivity. Qed.

Lemma existsb_false_not_in (names : list string) (r : string) :
  ~ In r names -> existsb (string_eqb r) names = false.
Proof.
  intros H. apply Bool.not_true_iff_false. intros Hex.
  apply existsb_exists in Hex as [x [Hx Heq]]. apply String.eqb_eq in Heq. subst x.
  exact (H Hx).
Qed.

Lemma existsb_true_in (names : list string) (r : string) :
  In r names -> existsb (string_eqb r) names = true.
Proof.
  intros H. apply existsb_exists. exists r. split; [exact H | apply String.eqb_refl].
Qed.

Lemma filter_none_in {X} (p : X -> bool) (l : list X) :
  (forall x, In x l -> p x = false) -> filter p l = [].
Proof.
  induction l as [|x l IH]; intros H; simpl; [reflexivity|].
  rewrite (H x (or_introl eq_refl)). apply IH. intros y Hy. apply H. right. exact Hy.
Qed.

(** X22: a user who is no leader and holds no team role joins an existing
    team and quits at once.  Both handlers answer with success and he has
    his old roles back, but not his old nickname: joining puts the team name
    and a blank before his display name, and quitting only cuts what stands
    before a [" - "], so that a nickname without one keeps the team
    prefix. *)
Theorem quit_keeps_the_team_prefix (u : user) (team : string) (s : Store) :
  teams_led_by (user_id u) s = [] ->
  In team (map team_name (teams s)) ->
  (forall r, In r (roles u) -> ~ In r (map team_name (teams s))) ->
  exists u1 u2,
    join_select_callback u team s = (s, Return (u1, Joined team))
    /\ quit_team_logic u1 s = (s, Return (u2, QuitDone))
    /\ roles u1 = roles u ++ [team]
    /\ roles u2 = roles u
    /\ nick u1 = Some (team ++ " " ++ display_name u)%string
    /\ nick u2 = Some (split_once_last " - " (team ++ " " ++ display_name u))
    /\ (after_first_from " - " (team ++ " " ++ display_name u) = None -> nick u2 = nick u1).
Proof.
  intros Hled Hteam Hroles.
  set (names := map team_name (teams s)) in *.
  set (n := (team ++ " " ++ display_name u)%string).
  assert (Hkept : filter (fun r => negb (existsb (string_eqb r) names)) (roles u ++ [team])
                  = roles u).
  { rewrite filter_app. simpl. rewrite (existsb_true_in names team Hteam). simpl.
    rewrite app_nil_r. apply filter_all. intros r Hr.
    rewrite (existsb_false_not_in names r (Hroles r Hr)). reflexivity. }
  assert (Hheld : filter (fun r => existsb (string_eqb r) names) (roles u ++ [team]) = [team]).
  { rewrite filter_app. simpl. rewrite (existsb_true_in names team Hteam).
    rewrite filter_none_in; [reflexivity|]. intros r Hr.
    exact (existsb_false_not_in names r (Hroles r Hr)). }
  exists (mk_user (user_id u) (account_name u) (Some n) (roles u ++ [team])).
  exists (mk_user (user_id u) (account_name u) (Some (split_once_last " - " n)) (roles u)).
  split; [reflexivity|]. split.
  { assert (Hprefix : startswith (team ++ " ") n = true).
    { unfold n. rewrite <- append_assoc. apply startswith_app. }
    assert (Htruthy : truthy (Some n) = true).
    { unfold n. destruct team; reflexivity. }
    unfold quit_team_logic. cbn [user_id roles nick account_name]. rewrite Hled.
    fold names. rewrite Hheld, Hkept, Htruthy.
    cbn [existsb andb orb]. rewrite Hprefix. reflexivity. }
  split; [reflexivity|]. split; [reflexivity|]. split; [reflexivity|]. split; [reflexivity|].
  intros Hnone. simpl. unfold split_once_last. fold n in Hnone. rewrite Hnone. reflexivity.
Qed.

(** [bob] joins team [ABC] and quits. *)
Lemma quit_keeps_the_team_prefix_witness :
  exists u1 u2,
    join_select_callback bob "ABC" store_abc = (store_abc, Return (u1, Joined "ABC"))
    /\ quit_team_logic u1 store_abc = (store_abc, Return (u2, QuitDone))
    /\ roles u1 = roles bob ++ ["ABC"%string]
    /\ roles u2 = roles bob
    /\ nick u1 = Some ("ABC" ++ " " ++ display_name bob)%string
    /\ nick u2 = Some (split_once_last " - " ("ABC" ++ " " ++ display_name bob))
    /\ (after_first_from " - " ("ABC" ++ " " ++ display_name bob) = None -> nick u2 = nick u1).
Proof.
  apply (quit_keeps_the_team_prefix bob "ABC" store_abc).
  - reflexivity.
  - left. reflexivity.
  - intros r [].
Defined.

(** ** Slots *)

(** X23: once its transaction is entered, the block of [add_scrim_time]
    stores a new period as the last slot that [get_scrim_times] returns and
    keeps the others in their order; for a period that is already a slot
    the insert raises [IntegrityError], the generator rolls back and raises
    it again, and the store is as before. *)
Theorem scrim_time_round_trip (period : string) (s : Store) :
  let add := transaction_generator (add_scrim_time_body period) in
  if existsb (fun r => string_eqb (time_period r) period) (scrims s)
  then add s = (s, Raise IntegrityError)
       /\ In period (map time_period (scrims s))
  else outcome get_scrim_times (store_after add s)
       = Return (map time_period (scrims s) ++ [period])
       /\ ~ In period (map time_period (scrims s))
       /\ teams (store_after add s) = teams s
       /\ members (store_after add s) = members s.
Proof.
  cbv zeta. unfold transaction_generator, add_scrim_time_body, insert_scrim, store_after, outcome.
  destruct (existsb _ (scrims s)) eqn:Hknown.
  - split; [reflexivity|]. apply existsb_exists in Hknown as [r [Hr Heq]].
    apply String.eqb_eq in Heq. subst period. apply in_map. exact Hr.
  - simpl. rewrite map_app. split; [reflexivity|]. split; [|split; reflexivity].
    intros Hin. apply in_map_iff in Hin as [r [Heq Hr]].
    apply Bool.not_true_iff_false in Hknown. apply Hknown. apply existsb_exists.
    exists r. split; [exact Hr|]. apply String.eqb_eq. exact Heq.
Qed.

(** ** Texts beyond ASCII *)

(** A name of two accented letters has four bytes and two characters: it
    is taken as a team name. *)
Lemma accented_name_is_short :
  String.length (accented 2) = 4%nat
  /\ py_len (accented 2) = 2%nat
  /\ create_team_logic bob [accented 2] empty_store = (empty_store, Return NameTaken).
Proof. repeat split. Qed.

(** A date of 60 accented letters has 120 bytes and is offered whole by the
    cancel menu; cancelling it deletes its row. *)
Lemma accented_date_is_cancelled :
  String.length (accented 60) = 120%nat
  /\ cancel_options "ABC" store_accented = [accented 60]
  /\ teams (store_after (cancel_select_callback "ABC" (cancel_options "ABC" store_accented))
                        store_accented) = [].
Proof. repeat split. Qed.
